(** * BGE-M3 embedding server (model_server/app.py)

    A shallow embedding of the request-handling code of the embedding
    server: device detection, model loading, the mock embedder, the real
    embedding path with its fallback, and the two HTTP handlers.

    Conventions of the embedding.
    - Python [int] is [Z]; [len] is a [nat].
    - numpy is outside the repository.  Its scalars are an abstract type
      and the operations the code calls on them ([np.linalg.norm], the
      division of an array by a scalar, the test [> 0], the cast to
      float32, the subtraction of two clock readings) are variables of the
      section, so that what is proved holds for the floating-point
      arithmetic numpy computes with, whatever its rounding.  Two
      arithmetics are given to instantiate them: the exact reals ([Np])
      and IEEE binary64 ([F64]), which computes.
    - Python exceptions are values of [exn]; a computation is a function
      from the process state ([World]) to a result-or-exception and the new
      state, so that what was mutated before a [raise] stays mutated.
    - The process state holds the module globals ([model], [device]), the
      numpy random stream, the wall clock and the log.
    - torch, FlagEmbedding and the string conversions of library objects
      are outside the repository; they are variables of the section, and
      every call that can raise returns a [result].
    - The global [tokenizer] is never assigned and is left out, as is the
      static root endpoint. *)

From Stdlib Require Import String List ZArith Lia Bool Arith.
From Stdlib Require Import Reals Lra.
From Stdlib Require Import DecimalString.
From Stdlib Require PrimFloat SpecFloat FloatOps.
Import ListNotations.

Local Open Scope string_scope.
Local Open Scope Z_scope.

(** ** numpy over the exact reals

    One arithmetic for the numpy operations of the server: real numbers,
    without rounding. *)

Module Np.

Definition vector := list R.

(** Sum of the squares of the entries. *)
Fixpoint sumsq (v : vector) : R :=
  match v with
  | [] => 0%R
  | x :: v' => (x * x + sumsq v')%R
  end.

(** [np.linalg.norm(v)] for a one-dimensional array. *)
Definition linalg_norm (v : vector) : R := sqrt (sumsq v).

(** [x > 0] *)
Definition greater_zero (x : R) : bool :=
  if Rlt_dec 0 x then true else false.

End Np.

(** ** numpy over IEEE binary64

    The other arithmetic: double precision floating-point numbers, which
    compute.  The norm sums the squares from left to right, and what numpy
    computes in single precision after the cast this arithmetic computes in
    double precision; the examples that use it take values (zeros, powers
    of two, squares that underflow) on which neither the order of the sum
    nor the precision has an effect. *)

Module F64.

Import PrimFloat.

Definition vector := list float.

Definition sumsq (v : vector) : float :=
  fold_left (fun acc x => (acc + x * x)%float) v 0%float.

(** [np.linalg.norm(v)] for a one-dimensional array. *)
Definition linalg_norm (v : vector) : float := sqrt (sumsq v).

(** [x / y] *)
Definition true_divide (x y : float) : float := (x / y)%float.

(** [x > 0] *)
Definition greater_zero (x : float) : bool := ltb 0%float x.

(** [x - y] *)
Definition subtract (x y : float) : float := (x - y)%float.

(** [.astype(np.float32)] on one entry: rounding to single precision. *)
Definition astype_float32 (x : float) : float :=
  match FloatOps.Prim2SF x with
  | SpecFloat.S754_finite s m e =>
      FloatOps.SF2Prim
        (SpecFloat.binary_normalize 24 128
           (if s then Z.neg m else Z.pos m) e s)
  | _ => x
  end.




End F64.

(** ** Python built-ins used by the server *)

Module Py.

(** Exceptions.  Both constructors are subclasses of Python's [Exception]:
    [HTTPException] is FastAPI's, [Exception] stands for any other one
    (ValueError, RuntimeError, ...), carrying its message. *)
Inductive exn : Type :=
| HTTPException (status_code : Z) (detail : string)
| Exception (message : string).

(** The outcome of a call: an exception raised, or a value returned. *)
Definition result (A : Type) : Type := (exn + A)%type.

(** [len(range(start, stop, step))] for a step that is not zero. *)
Definition range_len (start stop step : Z) : Z :=
  if 0 <? step then
    if start <? stop then (stop - start - 1) / step + 1 else 0
  else if step <? 0 then
    if stop <? start then (start - stop - 1) / (- step) + 1 else 0
  else 0.

(** [range(start, stop, step)], which raises ValueError on a zero step. *)
Definition range (start stop step : Z) : result (list Z) :=
  if step =? 0 then inl (Exception "range() arg 3 must not be zero")
  else inr (map (fun k => start + Z.of_nat k * step)
                (seq 0 (Z.to_nat (range_len start stop step)))).

(** A slice bound brought into [0, n]: a negative bound counts from the
    end, and what is out of range is clamped. *)
Definition slice_index (n i : Z) : Z :=
  if i <? 0 then Z.max 0 (i + n) else Z.min i n.

(** [l[lo:hi]] *)
Definition slice {A : Type} (l : list A) (lo hi : Z) : list A :=
  let n := Z.of_nat (length l) in
  let lo' := slice_index n lo in
  let hi' := slice_index n hi in
  firstn (Z.to_nat (hi' - lo')) (skipn (Z.to_nat lo') l).

(** [x or d] for an [Optional[int]]: [None] and [0] are falsy. *)
Definition int_or (x : option Z) (d : Z) : Z :=
  match x with
  | Some v => if v =? 0 then d else v
  | None => d
  end.

(** [x or d] for an optional string: [None] and the empty string are falsy. *)
Definition str_or (x : option string) (d : string) : string :=
  match x with
  | Some EmptyString => d
  | Some s => s
  | None => d
  end.

(** [not l] for a list: the empty list is falsy. *)
Definition not_list {A : Type} (l : list A) : bool :=
  match l with
  | [] => true
  | _ :: _ => false
  end.

(** [str(n)] for the length of a list. *)
Definition str_of_len (n : nat) : string :=
  NilEmpty.string_of_uint (Nat.to_uint n).

(** [str(b)] for a [bool]. *)
Definition str_of_bool (b : bool) : string :=
  if b then "True" else "False".

End Py.

Import Py.

(** ** Request and response schemas (pydantic models) *)

Record EmbedRequest : Type := mkEmbedRequest {
  texts : list string;
  batch_size : option Z;
  normalize : option bool
}.

(** The defaults of the two optional fields, taken when the request body
    omits them: [Field(64, ...)] and [Field(True, ...)]. *)
Definition batch_size_default : option Z := Some 64.
Definition normalize_default : option bool := Some true.

(** The [model_info] dictionary of a health response. *)
Record HealthModelInfo : Type := mkHealthModelInfo {
  hmi_model_name : string;
  hmi_embedding_dim : Z;
  hmi_device : string;
  hmi_model_type : string
}.

Record HealthResponse : Type := mkHealthResponse {
  status : string;
  hr_device : string;
  model_loaded : bool;
  hr_model_info : HealthModelInfo
}.

(** ** Logging *)

Inductive level : Type := INFO | WARNING | ERROR.

Definition LogRecord : Type := (level * string)%type.

(** ** HTTP answers: a status code and a body, which is the detail of an
    error or the returned model. *)

Record HttpResponse (A : Type) : Type := mkHttpResponse {
  http_status : Z;
  http_body : string + A
}.

Arguments mkHttpResponse {A} _ _.
Arguments http_status {A} _.
Arguments http_body {A} _.

(** ** The server *)

Section Server.

(** numpy: the scalars, [np.linalg.norm] of a one-dimensional array,
    [x / y], [x > 0], the cast of an entry to float32 and [x - y]. *)
Variable scalar : Type.
Variable linalg_norm : list scalar -> scalar.
Variable true_divide : scalar -> scalar -> scalar.
Variable greater_zero : scalar -> bool.
Variable astype_float32 : scalar -> scalar.
Variable subtract : scalar -> scalar -> scalar.

(** A one-dimensional array, or the list of a vector. *)
Definition vector : Type := list scalar.

(** [v / n], the array divided entry by entry by a scalar. *)
Definition divide (v : vector) (n : scalar) : vector :=
  map (fun x => true_divide x n) v.

(** The model handle returned by FlagEmbedding. *)
Variable Model : Type.

(** torch: what the host offers.  The two availability tests return a
    boolean; the name of a device is looked up by a call that can
    raise. *)
Variable cuda_is_available : bool.
Variable cuda_get_device_name : Z -> result string.
Variable mps_is_available : bool.
Variable torch_device : string -> result unit.

(** FlagEmbedding: the constructor of the model, moving it to a device,
    and [encode], whose result is taken after the conversion of its dense
    vectors to lists. *)
Variable BGEM3FlagModel : string -> bool -> result Model.
Variable model_cuda : Model -> result Model.
Variable model_to : Model -> string -> result Model.
Variable model_encode : Model -> list string -> Z -> result (list vector).

(** [str(e)] of an exception and the [:.2f] format of a float. *)
Variable str : exn -> string.
Variable format_2f : scalar -> string.

(** The [model_info] dictionary of an embed response. *)
Record EmbedModelInfo : Type := mkEmbedModelInfo {
  emi_model_name : string;
  emi_device : option string;
  emi_embedding_dim : Z;
  emi_processing_time : scalar;
  emi_text_count : nat
}.

Record EmbedResponse : Type := mkEmbedResponse {
  embeddings : list vector;
  model_info : EmbedModelInfo
}.

(** The state of the process: the module globals [model] and [device],
    the numpy random stream and how much of it was consumed, the wall clock
    as the sequence of its future readings, and the log. *)
Record World : Type := mkWorld {
  model : option Model;
  device : option string;
  random_stream : nat -> scalar;
  random_used : nat;
  clock : nat -> scalar;
  clock_reads : nat;
  log : list LogRecord
}.

(** A computation: it runs in a state and raises or returns, in a new
    state. *)
Definition M (A : Type) : Type := World -> result A * World.

Definition ret {A : Type} (a : A) : M A := fun w => (inr a, w).

Definition raise {A : Type} (e : exn) : M A := fun w => (inl e, w).

Definition bind {A B : Type} (m : M A) (k : A -> M B) : M B :=
  fun w =>
    match m w with
    | (inl e, w') => (inl e, w')
    | (inr a, w') => k a w'
    end.

(** [try: body  except Exception as e: handler(e)] *)
Definition try_except {A : Type} (body : M A) (handler : exn -> M A) : M A :=
  fun w =>
    match body w with
    | (inl e, w') => handler e w'
    | (inr a, w') => (inr a, w')
    end.

(** The outcome of a call to a library becomes the outcome of the
    computation. *)
Definition lift {A : Type} (r : result A) : M A := fun w => (r, w).

Notation "x <- m ;; k" := (bind m (fun x => k))
  (at level 61, m at next level, right associativity).
Notation "m ;; k" := (bind m (fun _ => k))
  (at level 61, right associativity).

(** [for x in xs: acc = body(x, acc)] *)
Fixpoint for_in {A S : Type} (xs : list A) (acc : S)
    (body : A -> S -> M S) : M S :=
  match xs with
  | [] => ret acc
  | x :: xs' => acc' <- body x acc ;; for_in xs' acc' body
  end.

Definition logger (lv : level) (msg : string) : M unit :=
  fun w =>
    (inr tt,
     mkWorld (model w) (device w) (random_stream w) (random_used w)
             (clock w) (clock_reads w) (log w ++ [(lv, msg)])%list).

Definition get_model : M (option Model) := fun w => (inr (model w), w).

Definition get_device : M (option string) := fun w => (inr (device w), w).

Definition set_model (m : Model) : M unit :=
  fun w =>
    (inr tt,
     mkWorld (Some m) (device w) (random_stream w) (random_used w)
             (clock w) (clock_reads w) (log w)).

Definition set_device (d : string) : M unit :=
  fun w =>
    (inr tt,
     mkWorld (model w) (Some d) (random_stream w) (random_used w)
             (clock w) (clock_reads w) (log w)).

(** [time.time()] *)
Definition time_time : M scalar :=
  fun w =>
    (inr (clock w (clock_reads w)),
     mkWorld (model w) (device w) (random_stream w) (random_used w)
             (clock w) (S (clock_reads w)) (log w)).

(** [np.random.randn(n)]: the next [n] draws of the stream. *)
Definition random_randn (n : nat) : M vector :=
  fun w =>
    (inr (map (random_stream w) (seq (random_used w) n)),
     mkWorld (model w) (device w) (random_stream w) (random_used w + n)%nat
             (clock w) (clock_reads w) (log w)).

(** *** detect_device *)

Definition detect_device : M string :=
  device_name <-
    (if cuda_is_available then
       name <- lift (cuda_get_device_name 0) ;;
       logger INFO ("CUDA available: " ++ name) ;;
       ret "cuda"
     else if mps_is_available then
       logger INFO "Apple Silicon MPS available" ;;
       ret "mps"
     else
       logger INFO "Using CPU fallback" ;;
       ret "cpu") ;;
  ret device_name.

(** *** load_model *)

Definition load_model : M bool :=
  try_except
    (d <- detect_device ;;
     set_device d ;;
     lift (torch_device d) ;;
     logger INFO ("Loading BGE-M3 model on " ++ d ++ "...") ;;
     let model_name := "BAAI/bge-m3" in
     let use_fp16 := negb (String.eqb d "cpu") in
     logger INFO ("Loading " ++ model_name ++ " with FP16="
                    ++ str_of_bool use_fp16) ;;
     m <- lift (BGEM3FlagModel model_name use_fp16) ;;
     set_model m ;;
     (if String.eqb d "cuda" then
        m' <- lift (model_cuda m) ;; set_model m'
      else if String.eqb d "mps" then
        m' <- lift (model_to m "mps") ;; set_model m'
      else ret tt) ;;
     logger INFO ("Model loaded successfully on " ++ d) ;;
     ret true)
    (fun e =>
       logger ERROR ("Failed to load model: " ++ str e) ;;
       ret false).

(** *** embed_texts_mock *)

Definition embed_texts_mock (texts : list string) (batch_size : Z)
  : M (list vector) :=
  for_in texts []
    (fun text embeddings =>
       embedding <- random_randn 1024 ;;
       let embedding := map astype_float32 embedding in
       let embedding := divide embedding (linalg_norm embedding) in
       ret (embeddings ++ [embedding])%list).

(** *** embed_texts_actual *)

(** The body of the normalisation loop: divide by the norm when the test
    [norm > 0] passes, keep the vector otherwise. *)
Definition normalize_embedding (embedding : vector) : vector :=
  let norm := linalg_norm embedding in
  if greater_zero norm then divide embedding norm else embedding.

Definition normalize_all (embeddings : list vector) : list vector :=
  fold_left
    (fun normalized_embeddings embedding =>
       (normalized_embeddings ++ [normalize_embedding embedding])%list)
    embeddings [].

Definition embed_texts_actual (texts : list string) (batch_size : Z)
  : M (list vector) :=
  try_except
    (m <- get_model ;;
     match m with
     | None =>
         logger WARNING "BGE-M3 model not loaded, using mock embeddings" ;;
         embed_texts_mock texts batch_size
     | Some mdl =>
         embeddings <- lift (model_encode mdl texts batch_size) ;;
         ret (normalize_all embeddings)
     end)
    (fun e =>
       logger ERROR ("Error in BGE-M3 embedding: " ++ str e) ;;
       logger WARNING "Falling back to mock embeddings due to error" ;;
       embed_texts_mock texts batch_size).

(** *** health_check *)

Definition health_check : M HealthResponse :=
  dev <- get_device ;;
  let model_info :=
    mkHealthModelInfo "BAAI/bge-m3" 1024 (str_or dev "unknown") "BGE-M3" in
  m <- get_model ;;
  let status := "healthy" in
  let model_loaded := match m with Some _ => true | None => false end in
  status <-
    (match m with
     | None =>
         logger WARNING
           "BGE-M3 model not loaded, but server is functional with mock embeddings" ;;
         ret "healthy_mock"
     | Some _ => ret status
     end) ;;
  ret (mkHealthResponse status (str_or dev "unknown") model_loaded model_info).

(** *** embed_texts *)

Definition embed_texts (request : EmbedRequest) : M EmbedResponse :=
  try_except
    (start_time <- time_time ;;
     (if not_list (texts request) then
        raise (HTTPException 400 "No texts provided")
      else ret tt) ;;
     (if 64 <? Z.of_nat (length (texts request)) then
        raise (HTTPException 400 "Too many texts. Maximum allowed: 64")
      else ret tt) ;;
     let batch_size := Z.min (int_or (batch_size request) 64) 64 in
     indices <- lift (range 0 (Z.of_nat (length (texts request))) batch_size) ;;
     all_embeddings <-
       for_in indices []
         (fun i all_embeddings =>
            let batch_texts := slice (texts request) i (i + batch_size) in
            batch_embeddings <- embed_texts_actual batch_texts batch_size ;;
            ret (all_embeddings ++ batch_embeddings)%list) ;;
     end_time <- time_time ;;
     let processing_time := subtract end_time start_time in
     logger INFO ("Processed " ++ str_of_len (length (texts request))
                    ++ " texts in " ++ format_2f processing_time ++ "s") ;;
     dev <- get_device ;;
     ret (mkEmbedResponse all_embeddings
            (mkEmbedModelInfo "BAAI/bge-m3" dev 1024 processing_time
               (length (texts request)))))
    (fun e =>
       logger ERROR ("Error generating embeddings: " ++ str e) ;;
       raise (HTTPException 500 ("Embedding generation failed: " ++ str e))).

(** *** What the client receives

    FastAPI answers 200 with the returned model, the status and detail of
    an [HTTPException] that left the handler, and 500 for any other
    exception. *)


Definition serve {A : Type} (handler : M A) (w : World)
  : HttpResponse A * World :=
  match handler w with
  | (inr a, w') => (mkHttpResponse 200 (inr a), w')
  | (inl (HTTPException code detail), w') =>
      (mkHttpResponse code (inl detail), w')
  | (inl (Exception _), w') =>
      (mkHttpResponse 500 (inl "Internal Server Error"), w')
  end.

(** [GET /health] and [POST /embed]. *)
Definition get_health : World -> HttpResponse HealthResponse * World :=
  serve health_check.

Definition post_embed (request : EmbedRequest)
  : World -> HttpResponse EmbedResponse * World :=
  serve (embed_texts request).

(** ** Properties *)

(** What no handler touches: the globals, the random stream and the clock
    as sequences.  Only the positions in the two sequences and the log
    move. *)
Definition frame (w w' : World) : Prop :=
  model w' = model w /\ device w' = device w /\
  random_stream w' = random_stream w /\ clock w' = clock w.

Lemma frame_refl (w : World) : frame w w.
Proof. repeat split. Qed.

Lemma frame_trans (w1 w2 w3 : World) :
  frame w1 w2 -> frame w2 w3 -> frame w1 w3.
Proof.
  unfold frame. intros (A1 & B1 & C1 & D1) (A2 & B2 & C2 & D2).
  repeat split; congruence.
Qed.

Lemma logger_frame (lv : level) (msg : string) (w : World) :
  exists w', logger lv msg w = (inr tt, w') /\ frame w w'.
Proof. eexists. split; [reflexivity | repeat split]. Qed.

(** The block of 1024 draws that starts at position [k] of a stream, cast
    to float32. *)
Definition block (stream : nat -> scalar) (k : nat) : vector :=
  map astype_float32 (map stream (seq k 1024)).

(** A vector the mock embedder makes: a block of the stream divided by its
    own norm. *)
Definition mock_vector (stream : nat -> scalar) (v : vector) : Prop :=
  exists k, v = divide (block stream k) (linalg_norm (block stream k)).




Lemma for_in_cons {A S : Type} (x : A) (xs : list A) (acc : S)
    (body : A -> S -> M S) (w : World) :
  for_in (x :: xs) acc body w =
  match body x acc w with
  | (inl e, w') => (inl e, w')
  | (inr acc', w') => for_in xs acc' body w'
  end.
Proof. reflexivity. Qed.

(** The loop of the mock embedder, from any accumulator. *)
Lemma embed_texts_mock_loop (texts : list string) :
  forall (acc : list vector) (w : World),
  exists vs w',
    for_in texts acc
      (fun text embeddings =>
         embedding <- random_randn 1024 ;;
         let embedding := map astype_float32 embedding in
         let embedding := divide embedding (linalg_norm embedding) in
         ret (embeddings ++ [embedding])%list) w
    = (inr (acc ++ vs)%list, w') /\
    length vs = length texts /\
    frame w w' /\
    Forall (mock_vector (random_stream w)) vs.
Proof.
  induction texts as [|t texts IH]; intros acc w.
  - exists [], w. simpl. unfold ret. rewrite app_nil_r.
    repeat split. constructor.
  - rewrite for_in_cons.
    destruct (IH (acc ++ [divide (block (random_stream w) (random_used w))
                            (linalg_norm
                               (block (random_stream w) (random_used w)))])%list
                 (mkWorld (model w) (device w) (random_stream w)
                    (random_used w + 1024)%nat (clock w) (clock_reads w)
                    (log w)))
      as (vs & w' & Hrun & Hlen & Hfr & Hall).
    change (bind (random_randn 1024) _ w) with
      (inr (A:=exn)
         (acc ++ [divide (block (random_stream w) (random_used w))
                    (linalg_norm
                       (block (random_stream w) (random_used w)))])%list,
       mkWorld (model w) (device w) (random_stream w)
         (random_used w + 1024)%nat (clock w) (clock_reads w) (log w)).
    cbv iota beta.
    rewrite Hrun. simpl in Hall.
    eexists (_ :: vs), w'. split; [|split; [|split]].
    + rewrite <- app_assoc. reflexivity.
    + simpl. rewrite Hlen. reflexivity.
    + eapply frame_trans; [|exact Hfr]. repeat split.
    + constructor; [|exact Hall]. exists (random_used w). reflexivity.
Qed.

(** The mock embedder always returns: one vector per text, each a
    normalised block of the stream. *)
Lemma embed_texts_mock_ok (texts : list string) (batch_size : Z) (w : World) :
  exists vs w',
    embed_texts_mock texts batch_size w = (inr vs, w') /\
    length vs = length texts /\
    frame w w' /\
    Forall (mock_vector (random_stream w)) vs.
Proof.
  unfold embed_texts_mock.
  destruct (embed_texts_mock_loop texts [] w) as (vs & w' & H & Hl & Hf & Ha).
  exists vs, w'. simpl in H. auto.
Qed.

Lemma normalize_all_map (embeddings : list vector) :
  normalize_all embeddings = map normalize_embedding embeddings.
Proof.
  unfold normalize_all.
  assert (G : forall acc,
             fold_left
               (fun normalized_embeddings embedding =>
                  (normalized_embeddings ++ [normalize_embedding embedding])%list)
               embeddings acc
             = (acc ++ map normalize_embedding embeddings)%list).
  { induction embeddings as [|e es IH]; intro acc; simpl.
    - now rewrite app_nil_r.
    - rewrite IH. rewrite <- app_assoc. reflexivity. }
  apply G.
Qed.


(** Running a computation whose first step is known. *)
Lemma bind_inr {A B : Type} (m : M A) (k : A -> M B) (w w' : World) (a : A) :
  m w = (inr a, w') -> bind m k w = k a w'.
Proof. intro H. unfold bind. rewrite H. reflexivity. Qed.

Lemma bind_inl {A B : Type} (m : M A) (k : A -> M B) (w w' : World) (e : exn) :
  m w = (inl e, w') -> bind m k w = (inl e, w').
Proof. intro H. unfold bind. rewrite H. reflexivity. Qed.

Lemma try_except_inr {A : Type} (body : M A) (handler : exn -> M A)
    (w w' : World) (a : A) :
  body w = (inr a, w') -> try_except body handler w = (inr a, w').
Proof. intro H. unfold try_except. rewrite H. reflexivity. Qed.

Lemma try_except_inl {A : Type} (body : M A) (handler : exn -> M A)
    (w w' : World) (e : exn) :
  body w = (inl e, w') -> try_except body handler w = handler e w'.
Proof. intro H. unfold try_except. rewrite H. reflexivity. Qed.

(** The state after some records were logged. *)
Definition logged (w : World) (records : list LogRecord) : World :=
  mkWorld (model w) (device w) (random_stream w) (random_used w)
          (clock w) (clock_reads w) (log w ++ records)%list.

Lemma logged_frame (w : World) (records : list LogRecord) :
  frame w (logged w records).
Proof. repeat split. Qed.

Definition not_loaded_records : list LogRecord :=
  [(WARNING, "BGE-M3 model not loaded, using mock embeddings")].

Definition fallback_records (e : exn) : list LogRecord :=
  [(ERROR, "Error in BGE-M3 embedding: " ++ str e);
   (WARNING, "Falling back to mock embeddings due to error")].

(** The three ways through [embed_texts_actual]. *)
Lemma embed_texts_actual_not_loaded (texts : list string) (batch_size : Z)
    (w : World) :
  model w = None ->
  embed_texts_actual texts batch_size w
  = embed_texts_mock texts batch_size (logged w not_loaded_records).
Proof.
  intro Hm.
  destruct (embed_texts_mock_ok texts batch_size (logged w not_loaded_records))
    as (vs & w' & Hrun & _).
  rewrite Hrun. unfold embed_texts_actual. apply try_except_inr.
  unfold bind at 1. unfold get_model. rewrite Hm.
  unfold bind. unfold logger. exact Hrun.
Qed.

Lemma embed_texts_actual_encode_raises (texts : list string) (batch_size : Z)
    (w : World) (mdl : Model) (e : exn) :
  model w = Some mdl ->
  model_encode mdl texts batch_size = inl e ->
  embed_texts_actual texts batch_size w
  = embed_texts_mock texts batch_size (logged w (fallback_records e)).
Proof.
  intros Hm He. unfold embed_texts_actual.
  rewrite (try_except_inl _ _ w w e).
  - unfold bind, logger. f_equal. unfold logged, fallback_records. simpl.
    rewrite <- app_assoc. reflexivity.
  - unfold bind, get_model, lift. rewrite Hm, He. reflexivity.
Qed.

Lemma embed_texts_actual_encoded (texts : list string) (batch_size : Z)
    (w : World) (mdl : Model) (raw : list vector) :
  model w = Some mdl ->
  model_encode mdl texts batch_size = inr raw ->
  embed_texts_actual texts batch_size w
  = (inr (map normalize_embedding raw), w).
Proof.
  intros Hm He. unfold embed_texts_actual. apply try_except_inr.
  unfold bind, get_model, lift, ret. rewrite Hm, He.
  rewrite normalize_all_map. reflexivity.
Qed.

(** Where the vectors of one call come from: the encoder's output, each
    vector normalised, or the mock embedder. *)
Lemma embed_texts_actual_ok (texts : list string) (batch_size : Z) (w : World) :
  exists vs w',
    embed_texts_actual texts batch_size w = (inr vs, w') /\
    frame w w' /\
    ((exists mdl raw,
        model w = Some mdl /\
        model_encode mdl texts batch_size = inr raw /\
        vs = map normalize_embedding raw)
     \/
     (length vs = length texts /\
      Forall (mock_vector (random_stream w)) vs)).
Proof.
  destruct (model w) as [mdl|] eqn:Hm.
  - destruct (model_encode mdl texts batch_size) as [e|raw] eqn:He.
    + rewrite (embed_texts_actual_encode_raises _ _ _ _ _ Hm He).
      destruct (embed_texts_mock_ok texts batch_size
                  (logged w (fallback_records e)))
        as (vs & w' & Hrun & Hlen & Hfr & Hall).
      exists vs, w'. split; [exact Hrun|]. split.
      * eapply frame_trans; [apply logged_frame | exact Hfr].
      * right. split; [exact Hlen | exact Hall].
    + rewrite (embed_texts_actual_encoded _ _ _ _ _ Hm He).
      exists (map normalize_embedding raw), w.
      split; [reflexivity|]. split; [apply frame_refl|].
      left. exists mdl, raw. auto.
  - rewrite (embed_texts_actual_not_loaded _ _ _ Hm).
    destruct (embed_texts_mock_ok texts batch_size
                (logged w not_loaded_records))
      as (vs & w' & Hrun & Hlen & Hfr & Hall).
    exists vs, w'. split; [exact Hrun|]. split.
    + eapply frame_trans; [apply logged_frame | exact Hfr].
    + right. split; [exact Hlen | exact Hall].
Qed.

(** *** Device selection *)

(** The tag the host's accelerators select: CUDA before MPS before the
    processor. *)
Definition selected_device : string :=
  if cuda_is_available then "cuda"
  else if mps_is_available then "mps" else "cpu".

(** What the calls of [detect_device] to torch lead to: the exception of
    the device name lookup, which only a host with CUDA makes, or the
    selected tag. *)
Definition detect_outcome : result string :=
  if cuda_is_available then
    match cuda_get_device_name 0 with
    | inl e => inl e
    | inr _ => inr "cuda"
    end
  else if mps_is_available then inr "mps" else inr "cpu".

(** What [load_model] leaves alone: the random stream and the clock, with
    the positions in them. *)
Definition same_streams (w w' : World) : Prop :=
  random_stream w' = random_stream w /\ random_used w' = random_used w /\
  clock w' = clock w /\ clock_reads w' = clock_reads w.

Lemma detect_device_run (w : World) :
  match detect_outcome with
  | inl e => detect_device w = (inl e, w)
  | inr d =>
      exists w',
        detect_device w = (inr d, w') /\ frame w w' /\ same_streams w w'
  end.
Proof.
  unfold detect_outcome, detect_device, bind, lift, logger, ret.
  destruct cuda_is_available;
    [destruct (cuda_get_device_name 0) | destruct mps_is_available].
  - reflexivity.
  - eexists. split; [reflexivity|]. split; repeat split.
  - eexists. split; [reflexivity|]. split; repeat split.
  - eexists. split; [reflexivity|]. split; repeat split.
Qed.

(** C6, as the code has it.  The device selector reads nothing but the
    host.  Where the host has no CUDA, and where it has CUDA and the lookup
    of the device name for the log returns, the selector returns in every
    state, and the tag is "cuda" with CUDA, else "mps" with MPS, else
    "cpu".  Where the host has CUDA and the lookup raises, the selector
    raises that exception in every state: it has this one failure path. *)
Theorem detect_device_outcome :
  match detect_outcome with
  | inr d =>
      (d = "cuda" \/ d = "mps" \/ d = "cpu") /\
      d = (if cuda_is_available then "cuda"
           else if mps_is_available then "mps" else "cpu") /\
      forall w : World,
        exists w', detect_device w = (inr d, w') /\ frame w w'
  | inl e =>
      cuda_is_available = true /\
      cuda_get_device_name 0 = inl e /\
      forall w : World, detect_device w = (inl e, w)
  end.
Proof.
  pose proof detect_device_run as Hrun.
  unfold detect_outcome in *.
  destruct cuda_is_available;
    [destruct (cuda_get_device_name 0) as [e|name] | destruct mps_is_available].
  - split; [reflexivity|]. split; [reflexivity | exact Hrun].
  - split; [auto|]. split; [reflexivity|]. intro w.
    destruct (Hrun w) as (w' & H & Hfr & _). exists w'. auto.
  - split; [auto|]. split; [reflexivity|]. intro w.
    destruct (Hrun w) as (w' & H & Hfr & _). exists w'. auto.
  - split; [auto|]. split; [reflexivity|]. intro w.
    destruct (Hrun w) as (w' & H & Hfr & _). exists w'. auto.
Qed.

(** *** Model loading and the fallback *)

Definition is_ok {A : Type} (r : result A) : bool :=
  match r with
  | inr _ => true
  | inl _ => false
  end.

(** Whether every library call of [load_model] after the device was
    detected returns, on device [d]. *)
Definition load_steps_return (d : string) : bool :=
  match torch_device d with
  | inl _ => false
  | inr _ =>
      match BGEM3FlagModel "BAAI/bge-m3" (negb (String.eqb d "cpu")) with
      | inl _ => false
      | inr m =>
          if String.eqb d "cuda" then is_ok (model_cuda m)
          else if String.eqb d "mps" then is_ok (model_to m "mps")
          else true
      end
  end.

(** Whether every library call of [load_model] returns: those of
    [detect_device], [torch.device], the constructor, and the move to the
    device. *)
Definition load_calls_return : bool :=
  match detect_outcome with
  | inl _ => false
  | inr d => load_steps_return d
  end.

Lemma load_model_returns (w : World) :
  exists w', load_model w = (inr load_calls_return, w').
Proof.
  unfold load_model, load_calls_return, detect_outcome, load_steps_return.
  unfold detect_device.
  unfold try_except, bind, lift, ret, logger, set_device, set_model.
  destruct cuda_is_available;
    [destruct (cuda_get_device_name 0) as [e0|name]
    |destruct mps_is_available]; cbn.
  - eexists; reflexivity.
  - destruct (torch_device "cuda"); cbn; [eexists; reflexivity|].
    destruct (BGEM3FlagModel "BAAI/bge-m3" true) as [e|m]; cbn;
      [eexists; reflexivity|].
    destruct (model_cuda m); cbn; eexists; reflexivity.
  - destruct (torch_device "mps"); cbn; [eexists; reflexivity|].
    destruct (BGEM3FlagModel "BAAI/bge-m3" true) as [e|m]; cbn;
      [eexists; reflexivity|].
    destruct (model_to m "mps"); cbn; eexists; reflexivity.
  - destruct (torch_device "cpu"); cbn; [eexists; reflexivity|].
    destruct (BGEM3FlagModel "BAAI/bge-m3" false) as [e|m]; cbn;
      eexists; reflexivity.
Qed.

(** C3. [load_model] never raises: it returns a boolean, which is false as
    soon as one of its library calls fails, the lookup of the device name
    in [detect_device] included.  [embed_texts_actual] never raises
    either: without a loaded model, and when [encode] raises, what it
    returns is the output of the mock embedder (after the log records of
    the fallback); otherwise it is the encoder's output, normalised. *)
Theorem model_unavailable_never_raised :
  (forall w : World,
     exists b w',
       load_model w = (inr b, w') /\
       b = load_calls_return) /\
  (forall (texts : list string) (batch_size : Z) (w : World),
     exists vs w',
       embed_texts_actual texts batch_size w = (inr vs, w') /\
       match model w with
       | None =>
           embed_texts_actual texts batch_size w
           = embed_texts_mock texts batch_size (logged w not_loaded_records)
       | Some mdl =>
           match model_encode mdl texts batch_size with
           | inl e =>
               embed_texts_actual texts batch_size w
               = embed_texts_mock texts batch_size
                   (logged w (fallback_records e))
           | inr raw => vs = map normalize_embedding raw /\ w' = w
           end
       end).
Proof.
  split.
  - intro w. destruct (load_model_returns w) as (w' & H).
    eexists. exists w'. split; [exact H | reflexivity].
  - intros texts batch_size w.
    destruct (embed_texts_actual_ok texts batch_size w)
      as (vs & w' & Hrun & _ & _).
    destruct (model w) as [mdl|] eqn:Hm.
    + destruct (model_encode mdl texts batch_size) as [e|raw] eqn:He.
      * exists vs, w'. split; [exact Hrun|].
        apply (embed_texts_actual_encode_raises _ _ _ mdl e); assumption.
      * rewrite (embed_texts_actual_encoded _ _ _ _ _ Hm He).
        eexists. eexists. split; [reflexivity|]. split; reflexivity.
    + exists vs, w'. split; [exact Hrun|].
      apply embed_texts_actual_not_loaded. exact Hm.
Qed.

(** *** Normalisation *)




(** *** The health handler *)

(** C5. The health handler never raises, the client receives status 200,
    and the body says "healthy_mock" with [model_loaded] false when no
    model is loaded, "healthy" with [model_loaded] true when one is. *)
Theorem health_check_always_200 (w : World) :
  exists h w',
    health_check w = (inr h, w') /\
    get_health w = (mkHttpResponse 200 (inr h), w') /\
    match model w with
    | None => status h = "healthy_mock" /\ model_loaded h = false
    | Some _ => status h = "healthy" /\ model_loaded h = true
    end.
Proof.
  unfold get_health, serve, health_check.
  unfold bind, get_device, get_model, logger, ret.
  destruct (model w) as [mdl|]; cbn;
    eexists; eexists; (split; [reflexivity|]); (split; [reflexivity|]);
    split; reflexivity.
Qed.

(** *** Batches *)

(** The batches the handler cuts a list into, for an effective batch size:
    the slices taken at the indices of the range. *)
Definition batches (l : list string) (size : Z) : list (list string) :=
  match range 0 (Z.of_nat (length l)) size with
  | inr indices => map (fun i => slice l i (i + size)) indices
  | inl _ => []
  end.

Lemma firstn_app_skipn {A : Type} (m k : nat) :
  forall l : list A,
    (firstn m l ++ firstn k (skipn m l))%list = firstn (m + k) l.
Proof.
  induction m as [|m IH]; intro l.
  - reflexivity.
  - destruct l as [|x l].
    + destruct k; reflexivity.
    + simpl. rewrite IH. reflexivity.
Qed.

(** A slice that starts at a multiple of a positive size and spans one
    size, on natural numbers. *)
Lemma slice_at_multiple {A : Type} (l : list A) (size : Z) (k : nat) :
  0 < size ->
  slice l (Z.of_nat k * size) (Z.of_nat k * size + size)
  = firstn (Z.to_nat size) (skipn (k * Z.to_nat size) l).
Proof.
  intro Hs. unfold slice, slice_index.
  set (n := Z.of_nat (length l)).
  assert (Hlo : 0 <= Z.of_nat k * size) by nia.
  destruct (Z.ltb_spec (Z.of_nat k * size) 0) as [Hneg|_]; [lia|].
  destruct (Z.ltb_spec (Z.of_nat k * size + size) 0) as [Hneg|_]; [lia|].
  assert (Hk : (k * Z.to_nat size)%nat = Z.to_nat (Z.of_nat k * size)).
  { rewrite Z2Nat.inj_mul by lia. rewrite Nat2Z.id. reflexivity. }
  destruct (Z_lt_le_dec (Z.of_nat k * size) n) as [Hin|Hout].
  - rewrite (Z.min_l (Z.of_nat k * size) n) by lia. rewrite <- Hk.
    destruct (Z_le_gt_dec (Z.of_nat k * size + size) n) as [Hfull|Hpart].
    + rewrite Z.min_l by lia. f_equal. lia.
    + rewrite Z.min_r by lia.
      assert (Hlen : length (skipn (k * Z.to_nat size) l)
                     = Z.to_nat (n - Z.of_nat k * size)).
      { rewrite length_skipn. unfold n. lia. }
      rewrite firstn_all2 by lia. rewrite firstn_all2 by lia. reflexivity.
  - rewrite (Z.min_r (Z.of_nat k * size) n) by lia.
    rewrite Z.min_r by lia.
    rewrite (skipn_all2 (n:=k * Z.to_nat size)) by (unfold n in Hout; lia).
    rewrite firstn_nil. rewrite Z.sub_diag. reflexivity.
Qed.

Lemma slices_concat {A : Type} (l : list A) (b c : nat) :
  forall a : nat,
    concat (map (fun k => firstn b (skipn (k * b) l)) (seq a c))
    = firstn (c * b) (skipn (a * b) l).
Proof.
  induction c as [|c IH]; intro a.
  - reflexivity.
  - simpl seq. simpl map. simpl concat. rewrite IH.
    replace (S a * b)%nat with (b + a * b)%nat by lia.
    rewrite <- skipn_skipn. rewrite firstn_app_skipn.
    f_equal.
Qed.

Lemma range_positive_step (n size : Z) :
  0 < size ->
  range 0 n size
  = inr (map (fun k => Z.of_nat k * size)
             (seq 0 (Z.to_nat (range_len 0 n size)))).
Proof.
  intro Hs. unfold range.
  destruct (Z.eqb_spec size 0) as [H0|_]; [lia|].
  reflexivity.
Qed.

Lemma batches_positive (l : list string) (size : Z) :
  0 < size ->
  batches l size
  = map (fun k => firstn (Z.to_nat size) (skipn (k * Z.to_nat size) l))
        (seq 0 (Z.to_nat (range_len 0 (Z.of_nat (length l)) size))).
Proof.
  intro Hs. unfold batches. rewrite (range_positive_step _ _ Hs).
  rewrite map_map. apply map_ext. intro k.
  apply slice_at_multiple. exact Hs.
Qed.

(** For a positive size the batches, put end to end, are the list. *)
Lemma batches_concat (l : list string) (size : Z) :
  0 < size -> concat (batches l size) = l.
Proof.
  intro Hs. rewrite (batches_positive _ _ Hs). rewrite slices_concat.
  simpl skipn. apply firstn_all2.
  unfold range_len.
  destruct (Z.ltb_spec 0 size) as [_|H]; [|lia].
  destruct (Z.ltb_spec 0 (Z.of_nat (length l))) as [Hn|Hn].
  - pose proof (Z.div_mod (Z.of_nat (length l) - 0 - 1) size) as Hdm.
    pose proof (Z.mod_pos_bound (Z.of_nat (length l) - 0 - 1) size Hs) as Hb.
    pose proof (Z.div_pos (Z.of_nat (length l) - 0 - 1) size) as Hq.
    set (q := (Z.of_nat (length l) - 0 - 1) / size) in *.
    assert (Z.of_nat (length l) <= (q + 1) * size) by nia.
    assert (0 <= q) by (apply Hq; lia).
    apply Nat2Z.inj_le. rewrite Nat2Z.inj_mul.
    rewrite !Z2Nat.id by lia. lia.
  - lia.
Qed.

(** No batch is longer than the size. *)
Lemma batches_bounded (l : list string) (size : Z) :
  0 < size ->
  Forall (fun batch => Z.of_nat (length batch) <= size) (batches l size).
Proof.
  intro Hs. rewrite (batches_positive _ _ Hs).
  apply Forall_forall. intros batch Hin.
  apply in_map_iff in Hin. destruct Hin as (k & <- & _).
  rewrite length_firstn. lia.
Qed.

(** A negative step from 0 to a length gives the empty range. *)
Lemma range_negative_step (n : nat) (size : Z) :
  size < 0 -> range 0 (Z.of_nat n) size = inr [].
Proof.
  intro Hs. unfold range, range_len.
  destruct (Z.eqb_spec size 0) as [H0|_]; [lia|].
  destruct (Z.ltb_spec 0 size) as [H|_]; [lia|].
  destruct (Z.ltb_spec size 0) as [_|H]; [|lia].
  destruct (Z.ltb_spec (Z.of_nat n) 0) as [H|_]; [lia|].
  reflexivity.
Qed.

(** *** The batch loop of the handler *)

(** A loop that only appends to its accumulator returns the accumulator
    followed by what each round appended, in the order of the rounds. *)
Lemma for_in_append {A B : Type} (P : A -> list B -> Prop)
    (Inv : World -> Prop) (body : A -> list B -> M (list B)) :
  (forall x acc w, Inv w ->
     exists r w', body x acc w = (inr (acc ++ r)%list, w') /\ P x r /\ Inv w') ->
  forall (xs : list A) (acc : list B) (w : World),
    Inv w ->
    exists rs w',
      for_in xs acc body w = (inr (acc ++ concat rs)%list, w') /\
      Forall2 P xs rs /\ Inv w'.
Proof.
  intros Hbody xs. induction xs as [|x xs IH]; intros acc w Hw.
  - exists [], w. simpl. unfold ret. rewrite app_nil_r.
    split; [reflexivity|]. split; [constructor | exact Hw].
  - rewrite for_in_cons.
    destruct (Hbody x acc w Hw) as (r & w1 & Hrun & HP & Hw1).
    rewrite Hrun.
    destruct (IH (acc ++ r)%list w1 Hw1) as (rs & w' & Hrest & HF & Hw').
    exists (r :: rs), w'. rewrite Hrest. simpl. rewrite app_assoc.
    split; [reflexivity|]. split; [constructor; assumption | exact Hw'].
Qed.

(** One call of [embed_texts_actual] on a batch, from a state that differs
    from [w0] in positions and log only, returned [out]. *)
Definition embedded_from (w0 : World) (size : Z) (batch : list string)
    (out : list vector) : Prop :=
  exists w1 w2,
    frame w0 w1 /\ embed_texts_actual batch size w1 = (inr out, w2).

Lemma batch_loop (l : list string) (size : Z) (indices : list Z)
    (w0 w : World) :
  frame w0 w ->
  exists outs w',
    for_in indices []
      (fun i all_embeddings =>
         let batch_texts := slice l i (i + size) in
         batch_embeddings <- embed_texts_actual batch_texts size ;;
         ret (all_embeddings ++ batch_embeddings)%list) w
    = (inr (concat outs), w') /\
    frame w0 w' /\
    Forall2 (embedded_from w0 size)
      (map (fun i => slice l i (i + size)) indices) outs.
Proof.
  intro Hw.
  destruct (for_in_append
              (fun i out => embedded_from w0 size (slice l i (i + size)) out)
              (frame w0)
              (fun i all_embeddings =>
                 let batch_texts := slice l i (i + size) in
                 batch_embeddings <- embed_texts_actual batch_texts size ;;
                 ret (all_embeddings ++ batch_embeddings)%list))
    with (xs := indices) (acc := @nil vector) (w := w)
    as (outs & w' & Hrun & HF & Hw').
  - intros i acc w1 Hw1. cbv zeta.
    destruct (embed_texts_actual_ok (slice l i (i + size)) size w1)
      as (vs & w2 & Hcall & Hfr & _).
    exists vs, w2. split.
    + rewrite (bind_inr _ _ _ _ _ Hcall). reflexivity.
    + split.
      * exists w1, w2. split; assumption.
      * eapply frame_trans; eassumption.
  - exact Hw.
  - exists outs, w'. split; [exact Hrun|]. split; [exact Hw'|].
    clear Hrun. induction HF; simpl; constructor; assumption.
Qed.

(** The handler on a request that passes the two checks, for an effective
    batch size that is not zero: it returns the outputs of the batches,
    put end to end. *)
Lemma embed_texts_run (request : EmbedRequest) (size : Z) (w : World) :
  not_list (texts request) = false ->
  (64 <? Z.of_nat (length (texts request))) = false ->
  Z.min (int_or (batch_size request) 64) 64 = size ->
  size <> 0 ->
  exists response w' outs,
    embed_texts request w = (inr response, w') /\
    frame w w' /\
    embeddings response = concat outs /\
    emi_text_count (model_info response) = length (texts request) /\
    Forall2 (embedded_from w size) (batches (texts request) size) outs.
Proof.
  intros Hne Hle Hsize Hnz.
  assert (Hrange : exists indices,
             range 0 (Z.of_nat (length (texts request))) size = inr indices).
  { unfold range. destruct (Z.eqb_spec size 0) as [H0|_]; [contradiction|].
    eexists. reflexivity. }
  destruct Hrange as (indices & Hrange).
  set (w1 := mkWorld (model w) (device w) (random_stream w) (random_used w)
               (clock w) (S (clock_reads w)) (log w)).
  assert (Hw1 : frame w w1) by (repeat split).
  destruct (batch_loop (texts request) size indices w w1 Hw1)
    as (outs & w2 & Hloop & Hw2 & HF).
  unfold embed_texts.
  eexists. eexists. exists outs. split.
  - apply try_except_inr.
    rewrite (bind_inr time_time _ w w1 (clock w (clock_reads w)))
      by reflexivity.
    rewrite Hne, Hle, Hsize.
    rewrite (bind_inr (ret tt) _ w1 w1 tt) by reflexivity.
    rewrite (bind_inr (ret tt) _ w1 w1 tt) by reflexivity.
    cbv zeta. rewrite Hrange.
    rewrite (bind_inr _ _ w1 w1 indices) by reflexivity.
    rewrite (bind_inr _ _ _ _ _ Hloop).
    unfold bind, time_time, logger, get_device, ret. reflexivity.
  - split.
    + eapply frame_trans; [exact Hw2|]. repeat split.
    + split; [reflexivity|]. split; [reflexivity|].
      unfold batches. rewrite Hrange. exact HF.
Qed.

Lemma post_embed_returned (request : EmbedRequest) (w w' : World)
    (response : EmbedResponse) :
  embed_texts request w = (inr response, w') ->
  post_embed request w = (mkHttpResponse 200 (inr response), w').
Proof. intro H. unfold post_embed, serve. rewrite H. reflexivity. Qed.

Lemma effective_batch_size_nonzero (requested : option Z) :
  Z.min (int_or requested 64) 64 <> 0.
Proof.
  unfold int_or. destruct requested as [v|]; [|lia].
  destruct (Z.eqb_spec v 0); lia.
Qed.

Lemma nonempty_not_list {A : Type} (l : list A) :
  l <> [] -> not_list l = false.
Proof. destruct l; [contradiction | reflexivity]. Qed.

(** *** The embed handler *)







(** X14. Order, seen through a loaded encoder that embeds text by text:
    the vector at each position is the normalised embedding of the text
    at that position, for any positive batch size. *)
Lemma embed_texts_pointwise_encoder (request : EmbedRequest) (b : Z)
    (w : World) (mdl : Model) (f : string -> vector) :
  texts request <> [] ->
  (length (texts request) <= 64)%nat ->
  batch_size request = Some b ->
  0 < b ->
  model w = Some mdl ->
  (forall ts size, model_encode mdl ts size = inr (map f ts)) ->
  exists response w',
    embed_texts request w = (inr response, w') /\
    embeddings response
    = map (fun t => normalize_embedding (f t)) (texts request).
Proof.
  intros Hne Hle Hb Hpos Hm Hf.
  assert (Hspos : 0 < Z.min b 64) by lia.
  destruct (embed_texts_run request (Z.min b 64) w) as
    (response & w' & outs & Hrun & _ & Hemb & _ & HF).
  - apply nonempty_not_list. exact Hne.
  - apply Z.ltb_ge. lia.
  - rewrite Hb. unfold int_or. destruct (Z.eqb_spec b 0); [lia | reflexivity].
  - lia.
  - exists response, w'. split; [exact Hrun|]. rewrite Hemb.
    rewrite <- (batches_concat (texts request) (Z.min b 64) Hspos) at 1.
    rewrite concat_map. f_equal.
    clear Hrun Hemb.
    induction HF as [|batch out bs outs (w1 & w2 & Hfr & Hcall) _ IH]; simpl.
    + reflexivity.
    + f_equal; [|exact IH].
      destruct Hfr as (Hmodel & _). rewrite Hm in Hmodel.
      rewrite (embed_texts_actual_encoded _ _ _ _ _ Hmodel (Hf batch _))
        in Hcall.
      injection Hcall as <- _. apply map_map.
Qed.

(** C2, as the code has it.  The two checks raise inside the handler's
    own [try], whose [except Exception] turns them into status 500: a
    request without texts or with more than 64 is answered 500, with the
    text of the intended 400 inside the detail, and every other request
    is answered 200. *)
Theorem post_embed_status (request : EmbedRequest) (w : World) :
  exists answer w',
    post_embed request w = (answer, w') /\
    if not_list (texts request) then
      answer
      = mkHttpResponse 500
          (inl ("Embedding generation failed: "
                  ++ str (HTTPException 400 "No texts provided")))
    else if 64 <? Z.of_nat (length (texts request)) then
      answer
      = mkHttpResponse 500
          (inl ("Embedding generation failed: "
                  ++ str (HTTPException 400
                            "Too many texts. Maximum allowed: 64")))
    else
      exists response, answer = mkHttpResponse 200 (inr response).
Proof.
  destruct (not_list (texts request)) eqn:Hne.
  - unfold post_embed, serve, embed_texts, try_except.
    unfold bind at 1. unfold time_time at 1. rewrite Hne.
    unfold bind, raise, logger. cbn.
    eexists. eexists. split; reflexivity.
  - destruct (64 <? Z.of_nat (length (texts request))) eqn:Hle.
    + unfold post_embed, serve, embed_texts, try_except.
      unfold bind at 1. unfold time_time at 1. rewrite Hne, Hle.
      unfold bind, raise, logger, ret. cbn.
      eexists. eexists. split; reflexivity.
    + destruct (embed_texts_run request _ w Hne Hle eq_refl
                  (effective_batch_size_nonzero _))
        as (response & w' & outs & Hrun & _).
      rewrite (post_embed_returned _ _ _ _ Hrun).
      eexists. eexists. split; [reflexivity|].
      exists response. reflexivity.
Qed.

(** C8. Two requests that differ in the [normalize] flag only are handled
    alike: same outcome of the handler, same answer to the client, same
    final state. *)
Theorem normalize_flag_ignored (ts : list string) (size : option Z)
    (flag1 flag2 : option bool) (w : World) :
  embed_texts (mkEmbedRequest ts size flag1) w
  = embed_texts (mkEmbedRequest ts size flag2) w /\
  post_embed (mkEmbedRequest ts size flag1) w
  = post_embed (mkEmbedRequest ts size flag2) w.
Proof. split; reflexivity. Qed.

(** C9. On a request with between 1 and 64 texts and a negative batch
    size the handler returns (status 200) an empty list of vectors, which
    is not one vector per text. *)
Theorem negative_batch_size_empty_embeddings (request : EmbedRequest)
    (b : Z) (w : World) :
  texts request <> [] ->
  (length (texts request) <= 64)%nat ->
  batch_size request = Some b ->
  b < 0 ->
  exists response w',
    embed_texts request w = (inr response, w') /\
    post_embed request w = (mkHttpResponse 200 (inr response), w') /\
    range 0 (Z.of_nat (length (texts request)))
      (Z.min (int_or (batch_size request) 64) 64) = inr [] /\
    embeddings response = [] /\
    length (embeddings response) <> length (texts request).
Proof.
  intros Hne Hle Hb Hneg.
  assert (Hsize : Z.min (int_or (batch_size request) 64) 64 = b).
  { rewrite Hb. unfold int_or. destruct (Z.eqb_spec b 0); lia. }
  destruct (embed_texts_run request b w) as
    (response & w' & outs & Hrun & _ & Hemb & _ & HF).
  - apply nonempty_not_list. exact Hne.
  - apply Z.ltb_ge. lia.
  - exact Hsize.
  - lia.
  - unfold batches in HF. rewrite (range_negative_step _ _ Hneg) in HF.
    inversion HF; subst outs. simpl in Hemb.
    exists response, w'.
    split; [exact Hrun|].
    split; [apply post_embed_returned; exact Hrun|].
    split; [rewrite Hsize; apply range_negative_step; exact Hneg|].
    split; [exact Hemb|].
    rewrite Hemb. simpl. destruct (texts request); [contradiction | discriminate].
Qed.

(** C10. A batch size of 0 is handled as the default of 64 is, and as an
    explicit null is: same outcome, same answer, same final state; the
    effective batch size is 64 in the three cases. *)
Theorem zero_batch_size_is_default (ts : list string) (flag : option bool)
    (w : World) :
  Z.min (int_or (Some 0) 64) 64 = 64 /\
  embed_texts (mkEmbedRequest ts (Some 0) flag) w
  = embed_texts (mkEmbedRequest ts batch_size_default flag) w /\
  embed_texts (mkEmbedRequest ts (Some 0) flag) w
  = embed_texts (mkEmbedRequest ts None flag) w /\
  post_embed (mkEmbedRequest ts (Some 0) flag) w
  = post_embed (mkEmbedRequest ts batch_size_default flag) w.
Proof. repeat split; reflexivity. Qed.

(** ** Further properties of the code *)

(** *** The application lifespan *)

(** The globals as the module sets them when it is imported. *)
Definition initial_world (stream : nat -> scalar) (ticks : nat -> scalar) : World :=
  mkWorld None None stream 0 ticks 0 [].

(** [lifespan], up to its [yield]: what runs when the server starts. *)
Definition lifespan_startup : M unit :=
  logger INFO "Starting BGE-M3 embedding server..." ;;
  loaded <- load_model ;;
  (if negb loaded then
     logger ERROR
       "Failed to load model. Server will start but embedding endpoints will fail."
   else ret tt).

(** [lifespan], after its [yield]: what runs when the server stops. *)
Definition lifespan_shutdown : M unit :=
  logger INFO "Shutting down BGE-M3 embedding server...".

(** *** The mock embedder, in closed form *)

(** The block at position [k] of a stream (cast to float32), divided by
    its norm. *)
Definition normalized_block (stream : nat -> scalar) (k : nat) : vector :=
  divide (block stream k) (linalg_norm (block stream k)).

(** The vectors of [n] consecutive blocks, from position [start]. *)
Definition mock_vectors (stream : nat -> scalar) (start n : nat)
  : list vector :=
  map (fun j => normalized_block stream (start + 1024 * j)) (seq 0 n).

Lemma mock_vectors_length (stream : nat -> scalar) (start n : nat) :
  length (mock_vectors stream start n) = n.
Proof. unfold mock_vectors. rewrite length_map. apply length_seq. Qed.

Lemma mock_vectors_succ (stream : nat -> scalar) (start n : nat) :
  mock_vectors stream start (S n)
  = normalized_block stream start
      :: mock_vectors stream (start + 1024) n.
Proof.
  unfold mock_vectors. rewrite <- cons_seq. rewrite <- seq_shift.
  rewrite map_cons, map_map. f_equal.
  - f_equal. lia.
  - apply map_ext. intro j. f_equal. lia.
Qed.

Lemma mock_vectors_app (stream : nat -> scalar) (n1 n2 : nat) :
  forall start,
    mock_vectors stream start (n1 + n2)
    = (mock_vectors stream start n1
         ++ mock_vectors stream (start + 1024 * n1) n2)%list.
Proof.
  induction n1 as [|n1 IH]; intro start.
  - simpl. f_equal. lia.
  - change (S n1 + n2)%nat with (S (n1 + n2)).
    rewrite !mock_vectors_succ. rewrite IH. simpl. do 3 f_equal. lia.
Qed.

(** The state after [n] more blocks of the stream were drawn. *)
Definition drawn (w : World) (n : nat) : World :=
  mkWorld (model w) (device w) (random_stream w)
          (random_used w + 1024 * n)%nat (clock w) (clock_reads w) (log w).

Lemma embed_texts_mock_loop_closed (texts : list string) :
  forall (acc : list vector) (w : World),
    for_in texts acc
      (fun text embeddings =>
         embedding <- random_randn 1024 ;;
         let embedding := map astype_float32 embedding in
         let embedding := divide embedding (linalg_norm embedding) in
         ret (embeddings ++ [embedding])%list) w
    = (inr (acc ++ mock_vectors (random_stream w) (random_used w)
                     (length texts))%list,
       drawn w (length texts)).
Proof.
  induction texts as [|t texts IH]; intros acc w.
  - simpl. unfold ret, drawn. rewrite app_nil_r. f_equal.
    destruct w; simpl. f_equal. lia.
  - rewrite for_in_cons.
    change (bind (random_randn 1024) _ w) with
      (inr (A:=exn)
         (acc ++ [normalized_block (random_stream w) (random_used w)])%list,
       mkWorld (model w) (device w) (random_stream w)
         (random_used w + 1024)%nat (clock w) (clock_reads w) (log w)).
    cbv iota beta. rewrite IH.
    change (length (t :: texts)) with (S (length texts)).
    rewrite mock_vectors_succ. rewrite <- app_assoc.
    unfold drawn. cbn [model device random_stream random_used clock
                       clock_reads log].
    f_equal. f_equal. lia.
Qed.

(** X1. The mock embedder, in closed form: for [n] texts it returns the
    next [n] blocks of 1024 draws, each cast to float32 and divided by its
    norm, in the order drawn; it moves the position in the stream by 1024
    times [n] and changes nothing else, the log included. *)
Theorem embed_texts_mock_closed_form (texts : list string) (batch_size : Z)
    (w : World) :
  embed_texts_mock texts batch_size w
  = (inr (mock_vectors (random_stream w) (random_used w) (length texts)),
     drawn w (length texts)).
Proof.
  unfold embed_texts_mock. rewrite embed_texts_mock_loop_closed.
  reflexivity.
Qed.

(** X2. The mock embedder reads neither the texts nor the batch size:
    two calls on as many texts, from the same state, give the same
    vectors and the same final state. *)
Theorem embed_texts_mock_ignores_content (texts1 texts2 : list string)
    (size1 size2 : Z) (w : World) :
  length texts1 = length texts2 ->
  embed_texts_mock texts1 size1 w = embed_texts_mock texts2 size2 w.
Proof.
  intro H. unfold embed_texts_mock.
  rewrite !embed_texts_mock_loop_closed. rewrite H. reflexivity.
Qed.

(** *** The batches, continued *)

Lemma range_len_ceiling (n size : Z) :
  0 < size -> 0 <= n -> range_len 0 n size = (n + size - 1) / size.
Proof.
  intros Hs Hn. unfold range_len.
  destruct (Z.ltb_spec 0 size) as [_|H]; [|lia].
  destruct (Z.ltb_spec 0 n) as [Hpos|Hz].
  - replace (n + size - 1) with (n - 0 - 1 + 1 * size) by lia.
    rewrite Z.div_add by lia. reflexivity.
  - assert (n = 0) by lia. subst n. symmetry. apply Z.div_small. lia.
Qed.

Lemma batches_count (l : list string) (size : Z) :
  0 < size ->
  length (batches l size)
  = Z.to_nat (range_len 0 (Z.of_nat (length l)) size).
Proof.
  intro Hs. rewrite (batches_positive _ _ Hs).
  rewrite length_map. apply length_seq.
Qed.

(** The batch of index [k] starts inside the list. *)
Lemma batch_starts_inside (n : nat) (size : Z) (k : nat) :
  0 < size ->
  (k < Z.to_nat (range_len 0 (Z.of_nat n) size))%nat ->
  (k * Z.to_nat size < n)%nat.
Proof.
  intros Hs Hk. unfold range_len in Hk.
  destruct (Z.ltb_spec 0 size) as [_|H]; [|lia].
  destruct (Z.ltb_spec 0 (Z.of_nat n)) as [Hn|Hn]; [|simpl in Hk; lia].
  pose proof (Z.mul_div_le (Z.of_nat n - 0 - 1) size Hs) as Hq.
  pose proof (Z.div_pos (Z.of_nat n - 0 - 1) size) as Hq0.
  set (q := (Z.of_nat n - 0 - 1) / size) in *.
  assert (0 <= q) by (apply Hq0; lia).
  assert (Z.of_nat k <= q) by lia.
  apply Nat2Z.inj_lt. rewrite Nat2Z.inj_mul. rewrite Z2Nat.id by lia. nia.
Qed.

(** A batch that is not the last one ends inside the list. *)
Lemma batch_ends_inside (n : nat) (size : Z) (k : nat) :
  0 < size ->
  (S k < Z.to_nat (range_len 0 (Z.of_nat n) size))%nat ->
  (k * Z.to_nat size + Z.to_nat size <= n)%nat.
Proof.
  intros Hs Hk.
  pose proof (batch_starts_inside n size (S k) Hs Hk) as H.
  simpl in H. lia.
Qed.

(** X5. For a positive size the batches of the loop are a partition of
    the texts in their order: put end to end they are the list, none is
    empty, none has more than [size] texts, every one but the last has
    exactly [size], and there are ceil(len / size) of them. *)
Theorem batches_partition (l : list string) (size : Z) :
  0 < size ->
  concat (batches l size) = l /\
  Forall (fun batch =>
            (1 <= length batch)%nat /\ Z.of_nat (length batch) <= size)
         (batches l size) /\
  Z.of_nat (length (batches l size))
  = (Z.of_nat (length l) + size - 1) / size /\
  forall i,
    (S i < length (batches l size))%nat ->
    Z.of_nat (length (nth i (batches l size) [])) = size.
Proof.
  intro Hs. split; [apply batches_concat; exact Hs|]. split; [|split].
  - rewrite (batches_positive _ _ Hs). apply Forall_forall.
    intros batch Hin. apply in_map_iff in Hin.
    destruct Hin as (k & <- & Hk). apply in_seq in Hk.
    pose proof (batch_starts_inside (length l) size k Hs) as Hin.
    rewrite length_firstn, length_skipn. lia.
  - rewrite (batches_count _ _ Hs).
    rewrite range_len_ceiling by lia.
    rewrite Z2Nat.id; [reflexivity|]. apply Z.div_pos; lia.
  - intros i Hi. rewrite (batches_count _ _ Hs) in Hi.
    rewrite (batches_positive _ _ Hs).
    rewrite (nth_indep _ [] (firstn (Z.to_nat size)
                               (skipn (0 * Z.to_nat size) l)))
      by (rewrite length_map, length_seq; lia).
    rewrite (map_nth (fun k => firstn (Z.to_nat size)
                                 (skipn (k * Z.to_nat size) l))).
    rewrite seq_nth by lia. simpl Nat.add.
    pose proof (batch_ends_inside (length l) size i Hs Hi) as Hend.
    rewrite length_firstn, length_skipn. lia.
Qed.

Lemma batches_single (l : list string) (size : Z) :
  l <> [] -> Z.of_nat (length l) <= size -> batches l size = [l].
Proof.
  intros Hne Hle.
  assert (Hlen : (0 < length l)%nat)
    by (destruct l; [contradiction | simpl; lia]).
  assert (Hs : 0 < size) by lia.
  rewrite (batches_positive _ _ Hs).
  assert (Hone : range_len 0 (Z.of_nat (length l)) size = 1).
  { unfold range_len.
    destruct (Z.ltb_spec 0 size) as [_|H]; [|lia].
    destruct (Z.ltb_spec 0 (Z.of_nat (length l))) as [_|H]; [|lia].
    rewrite Z.div_small by lia. reflexivity. }
  rewrite Hone. simpl. f_equal. apply firstn_all2. lia.
Qed.

(** *** The embed handler, continued *)

(** The state after the handler read the clock for the first time. *)
Definition after_first_read (w : World) : World :=
  mkWorld (model w) (device w) (random_stream w) (random_used w)
          (clock w) (S (clock_reads w)) (log w).

(** The handler on a request that passes the two checks, given what its
    loop returns. *)
Lemma embed_texts_after_loop (request : EmbedRequest) (w w2 : World)
    (indices : list Z) (all_embeddings : list vector) :
  not_list (texts request) = false ->
  (64 <? Z.of_nat (length (texts request))) = false ->
  range 0 (Z.of_nat (length (texts request)))
    (Z.min (int_or (batch_size request) 64) 64) = inr indices ->
  for_in indices []
    (fun i all_embeddings =>
       let batch_texts :=
         slice (texts request) i
           (i + Z.min (int_or (batch_size request) 64) 64) in
       batch_embeddings <-
         embed_texts_actual batch_texts
           (Z.min (int_or (batch_size request) 64) 64) ;;
       ret (all_embeddings ++ batch_embeddings)%list)
    (after_first_read w)
  = (inr all_embeddings, w2) ->
  embed_texts request w
  = (inr (mkEmbedResponse all_embeddings
            (mkEmbedModelInfo "BAAI/bge-m3" (device w2) 1024
               (subtract (clock w2 (clock_reads w2))
                  (clock w (clock_reads w)))
               (length (texts request)))),
     mkWorld (model w2) (device w2) (random_stream w2) (random_used w2)
       (clock w2) (S (clock_reads w2))
       (log w2
          ++ [(INFO,
               ("Processed " ++ str_of_len (length (texts request))
                  ++ " texts in "
                  ++ format_2f
                       (subtract (clock w2 (clock_reads w2))
                          (clock w (clock_reads w)))
                  ++ "s")%string)])%list).
Proof.
  intros Hne Hle Hrange Hloop. unfold embed_texts.
  apply try_except_inr.
  rewrite (bind_inr time_time _ w (after_first_read w)
             (clock w (clock_reads w))) by reflexivity.
  rewrite Hne, Hle.
  rewrite (bind_inr (ret tt) _ _ (after_first_read w) tt) by reflexivity.
  rewrite (bind_inr (ret tt) _ _ (after_first_read w) tt) by reflexivity.
  cbv zeta. rewrite Hrange.
  rewrite (bind_inr _ _ _ (after_first_read w) indices) by reflexivity.
  rewrite (bind_inr _ _ _ _ _ Hloop).
  reflexivity.
Qed.

(** What holds before a loop and is kept by each round, whatever the
    round's outcome, holds after the loop. *)
Lemma for_in_invariant {A S : Type} (I : World -> Prop)
    (body : A -> S -> M S) :
  (forall x acc w r w', I w -> body x acc w = (r, w') -> I w') ->
  forall xs acc w r w', I w -> for_in xs acc body w = (r, w') -> I w'.
Proof.
  intros Hbody xs. induction xs as [|x xs IH]; intros acc w r w' Hw Hrun.
  - simpl in Hrun. unfold ret in Hrun. injection Hrun as _ <-. exact Hw.
  - rewrite for_in_cons in Hrun.
    destruct (body x acc w) as [[e|acc'] w1] eqn:Hstep.
    + injection Hrun as _ <-. eapply Hbody; eassumption.
    + eapply IH; [|exact Hrun]. eapply Hbody; eassumption.
Qed.

(** One call of [embed_texts_actual] never reads the clock. *)
Lemma embed_texts_actual_clock_reads (ts : list string) (size : Z)
    (w w' : World) (r : result (list vector)) :
  embed_texts_actual ts size w = (r, w') ->
  clock_reads w' = clock_reads w.
Proof.
  intro Hrun. destruct (model w) as [mdl|] eqn:Hm.
  - destruct (model_encode mdl ts size) as [e|raw] eqn:He.
    + rewrite (embed_texts_actual_encode_raises _ _ _ _ _ Hm He) in Hrun.
      unfold embed_texts_mock in Hrun.
      rewrite embed_texts_mock_loop_closed in Hrun.
      injection Hrun as _ <-. reflexivity.
    + rewrite (embed_texts_actual_encoded _ _ _ _ _ Hm He) in Hrun.
      injection Hrun as _ <-. reflexivity.
  - rewrite (embed_texts_actual_not_loaded _ _ _ Hm) in Hrun.
    unfold embed_texts_mock in Hrun.
    rewrite embed_texts_mock_loop_closed in Hrun.
    injection Hrun as _ <-. reflexivity.
Qed.

Lemma batch_loop_clock_reads (l : list string) (size : Z)
    (indices : list Z) (acc : list vector) (w w' : World)
    (r : result (list vector)) :
  for_in indices acc
    (fun i all_embeddings =>
       let batch_texts := slice l i (i + size) in
       batch_embeddings <- embed_texts_actual batch_texts size ;;
       ret (all_embeddings ++ batch_embeddings)%list) w
  = (r, w') ->
  clock_reads w' = clock_reads w.
Proof.
  intro Hrun.
  refine (for_in_invariant (fun w1 => clock_reads w1 = clock_reads w)
            _ _ indices acc w r w' eq_refl Hrun).
  intros i acc1 w1 r1 w2 Hw1 Hstep. cbv zeta in Hstep.
  unfold bind in Hstep.
  destruct (embed_texts_actual (slice l i (i + size)) size w1)
    as [[e|out] w3] eqn:Hcall.
  - injection Hstep as _ <-.
    rewrite (embed_texts_actual_clock_reads _ _ _ _ _ Hcall). exact Hw1.
  - unfold ret in Hstep. injection Hstep as _ <-.
    rewrite (embed_texts_actual_clock_reads _ _ _ _ _ Hcall). exact Hw1.
Qed.

Lemma range_returns (n size : Z) :
  size <> 0 -> exists indices, range 0 n size = inr indices.
Proof.
  intro Hnz. unfold range.
  destruct (Z.eqb_spec size 0) as [H0|_]; [contradiction|].
  eexists. reflexivity.
Qed.

(** X15. The metadata of a successful answer, for any batch size: the
    model name, the [device] global as it is (null before a model was
    ever loaded), 1024, the number of texts, and as processing time the
    difference of two readings of the clock, the only two the handler
    makes. *)
Theorem embed_texts_model_info (request : EmbedRequest) (w : World) :
  texts request <> [] ->
  (length (texts request) <= 64)%nat ->
  exists response w',
    embed_texts request w = (inr response, w') /\
    model_info response
    = mkEmbedModelInfo "BAAI/bge-m3" (device w) 1024
        (subtract (clock w (S (clock_reads w))) (clock w (clock_reads w)))
        (length (texts request)) /\
    clock_reads w' = (clock_reads w + 2)%nat.
Proof.
  intros Hne Hle.
  pose proof (nonempty_not_list _ Hne) as Hnl.
  assert (Hlt : (64 <? Z.of_nat (length (texts request))) = false)
    by (apply Z.ltb_ge; lia).
  destruct (range_returns (Z.of_nat (length (texts request))) _
              (effective_batch_size_nonzero (batch_size request)))
    as (indices & Hrange).
  destruct (batch_loop (texts request)
              (Z.min (int_or (batch_size request) 64) 64) indices
              w (after_first_read w))
    as (outs & w2 & Hloop & (_ & Hdev & _ & Hclock) & _);
    [repeat split|].
  pose proof (batch_loop_clock_reads _ _ _ _ _ _ _ Hloop) as Hreads.
  rewrite (embed_texts_after_loop _ _ _ _ _ Hnl Hlt Hrange Hloop).
  eexists. eexists. split; [reflexivity|].
  cbn [model_info clock_reads]. rewrite Hdev, Hclock, Hreads.
  split; [reflexivity|]. simpl. lia.
Qed.

(** X8. Serving a request never touches the globals: after the embed
    handler, whatever its outcome, and after the health handler, [model]
    and [device] are what they were (and so are the random stream and the
    clock, as sequences). *)
Theorem handlers_keep_globals (request : EmbedRequest) (w : World) :
  frame w (snd (embed_texts request w)) /\
  frame w (snd (health_check w)).
Proof.
  split.
  - destruct (not_list (texts request)) eqn:Hne.
    + unfold embed_texts, try_except.
      unfold bind at 1. unfold time_time at 1. rewrite Hne.
      unfold bind, raise, logger. cbn. repeat split.
    + destruct (64 <? Z.of_nat (length (texts request))) eqn:Hle.
      * unfold embed_texts, try_except.
        unfold bind at 1. unfold time_time at 1. rewrite Hne, Hle.
        unfold bind, raise, logger, ret. cbn. repeat split.
      * destruct (embed_texts_run request _ w Hne Hle eq_refl
                    (effective_batch_size_nonzero _))
          as (response & w' & outs & Hrun & Hfr & _).
        rewrite Hrun. exact Hfr.
  - unfold health_check, bind, get_device, get_model, logger, ret.
    destruct (model w); cbn; repeat split.
Qed.

(** X6. When the effective batch size is at least the number of texts,
    which is so whenever the batch size is omitted, null, 0 or 64 and
    more, the handler makes a single call of [embed_texts_actual], on all
    the texts, and answers what that call returned. *)
Theorem embed_texts_single_batch (request : EmbedRequest) (w : World) :
  texts request <> [] ->
  (length (texts request) <= 64)%nat ->
  Z.of_nat (length (texts request))
  <= Z.min (int_or (batch_size request) 64) 64 ->
  exists response w' w2,
    embed_texts request w = (inr response, w') /\
    batches (texts request) (Z.min (int_or (batch_size request) 64) 64)
    = [texts request] /\
    embed_texts_actual (texts request)
      (Z.min (int_or (batch_size request) 64) 64) (after_first_read w)
    = (inr (embeddings response), w2).
Proof.
  intros Hne Hle Hsize.
  pose proof (nonempty_not_list _ Hne) as Hnl.
  assert (Hlt : (64 <? Z.of_nat (length (texts request))) = false)
    by (apply Z.ltb_ge; lia).
  pose proof (batches_single _ _ Hne Hsize) as Hone.
  set (size := Z.min (int_or (batch_size request) 64) 64) in *.
  assert (Hs : 0 < size)
    by (destruct (texts request); [contradiction | simpl in Hsize; lia]).
  assert (Hrange : range 0 (Z.of_nat (length (texts request))) size
                   = inr [0]).
  { rewrite (range_positive_step _ _ Hs). unfold range_len.
    destruct (Z.ltb_spec 0 size) as [_|H]; [|lia].
    destruct (Z.ltb_spec 0 (Z.of_nat (length (texts request))))
      as [Hn|H]; [|destruct (texts request); [contradiction|simpl in H; lia]].
    rewrite Z.div_small by lia. reflexivity. }
  assert (Hslice : slice (texts request) 0 (0 + size) = texts request).
  { unfold batches in Hone. rewrite Hrange in Hone. simpl in Hone.
    injection Hone as Hone. exact Hone. }
  destruct (embed_texts_actual_ok (texts request) size (after_first_read w))
    as (out & w2 & Hcall & _).
  assert (Hloop :
            for_in [0] []
              (fun i all_embeddings =>
                 let batch_texts := slice (texts request) i (i + size) in
                 batch_embeddings <- embed_texts_actual batch_texts size ;;
                 ret (all_embeddings ++ batch_embeddings)%list)
              (after_first_read w)
            = (inr out, w2)).
  { rewrite for_in_cons. cbv zeta. rewrite Hslice.
    rewrite (bind_inr _ _ _ _ _ Hcall). reflexivity. }
  rewrite (embed_texts_after_loop _ _ _ _ _ Hnl Hlt Hrange Hloop).
  eexists. eexists. exists w2. split; [reflexivity|].
  split; [exact Hone | exact Hcall].
Qed.

(** X7. The fallback is per batch.  With a model loaded, each batch is
    answered on its own: where [encode] returns, by the encoder's vectors,
    normalised; where [encode] raises, by as many mock vectors as the
    batch has texts.  A failure on one batch changes nothing for the
    others. *)
Theorem embed_texts_fallback_per_batch (request : EmbedRequest) (b : Z)
    (w : World) (mdl : Model) :
  texts request <> [] ->
  (length (texts request) <= 64)%nat ->
  batch_size request = Some b ->
  0 < b ->
  model w = Some mdl ->
  exists response w' outs,
    embed_texts request w = (inr response, w') /\
    embeddings response = concat outs /\
    Forall2
      (fun batch out =>
         match model_encode mdl batch (Z.min b 64) with
         | inr raw => out = map normalize_embedding raw
         | inl _ =>
             length out = length batch /\
             Forall (mock_vector (random_stream w)) out
         end)
      (batches (texts request) (Z.min b 64)) outs.
Proof.
  intros Hne Hle Hb Hpos Hm.
  destruct (embed_texts_run request (Z.min b 64) w) as
    (response & w' & outs & Hrun & _ & Hemb & _ & HF).
  - apply nonempty_not_list. exact Hne.
  - apply Z.ltb_ge. lia.
  - rewrite Hb. unfold int_or. destruct (Z.eqb_spec b 0); [lia | reflexivity].
  - lia.
  - exists response, w', outs. split; [exact Hrun|]. split; [exact Hemb|].
    eapply Forall2_impl; [|exact HF].
    intros batch out (w1 & w2 & (Hmodel & _ & Hstream & _) & Hcall).
    rewrite Hm in Hmodel.
    destruct (model_encode mdl batch (Z.min b 64)) as [e|raw] eqn:He.
    + rewrite (embed_texts_actual_encode_raises _ _ _ _ _ Hmodel He)
        in Hcall.
      destruct (embed_texts_mock_ok batch (Z.min b 64)
                  (logged w1 (fallback_records e)))
        as (vs & w3 & Hmock & Hlen & _ & Hall).
      rewrite Hmock in Hcall. injection Hcall as <- _.
      split; [exact Hlen|]. simpl in Hall. rewrite Hstream in Hall.
      exact Hall.
    + rewrite (embed_texts_actual_encoded _ _ _ _ _ Hmodel He) in Hcall.
      injection Hcall as <- _. reflexivity.
Qed.

(** The loop of the handler when no model is loaded: the vectors are
    consecutive blocks of the stream, however the texts are cut. *)
Lemma batch_loop_mock_mode (l : list string) (size : Z) (indices : list Z) :
  forall (acc : list vector) (w : World),
    model w = None ->
    exists w',
      for_in indices acc
        (fun i all_embeddings =>
           let batch_texts := slice l i (i + size) in
           batch_embeddings <- embed_texts_actual batch_texts size ;;
           ret (all_embeddings ++ batch_embeddings)%list) w
      = (inr (acc
                ++ mock_vectors (random_stream w) (random_used w)
                     (length
                        (concat
                           (map (fun i => slice l i (i + size)) indices))))%list,
         w') /\
      random_used w'
      = (random_used w
         + 1024 * length (concat
                            (map (fun i => slice l i (i + size)) indices)))%nat.
Proof.
  induction indices as [|i indices IH]; intros acc w Hm.
  - exists w. simpl. unfold ret. rewrite app_nil_r.
    split; [reflexivity | lia].
  - set (body := fun (i : Z) (all_embeddings : list vector) =>
                   let batch_texts := slice l i (i + size) in
                   batch_embeddings <- embed_texts_actual batch_texts size ;;
                   ret (all_embeddings ++ batch_embeddings)%list) in *.
    rewrite for_in_cons.
    assert (Hcall :
              embed_texts_actual (slice l i (i + size)) size w
              = (inr (mock_vectors (random_stream w) (random_used w)
                        (length (slice l i (i + size)))),
                 drawn (logged w not_loaded_records)
                   (length (slice l i (i + size))))).
    { rewrite (embed_texts_actual_not_loaded _ _ _ Hm).
      unfold embed_texts_mock. rewrite embed_texts_mock_loop_closed.
      reflexivity. }
    assert (Hstep :
              body i acc w
              = (inr (acc ++ mock_vectors (random_stream w) (random_used w)
                               (length (slice l i (i + size))))%list,
                 drawn (logged w not_loaded_records)
                   (length (slice l i (i + size))))).
    { unfold body. cbv zeta. rewrite (bind_inr _ _ _ _ _ Hcall).
      reflexivity. }
    rewrite Hstep.
    destruct (IH (acc ++ mock_vectors (random_stream w) (random_used w)
                           (length (slice l i (i + size))))%list
                 (drawn (logged w not_loaded_records)
                    (length (slice l i (i + size)))) Hm)
      as (w' & Hrest & Hused).
    exists w'. rewrite Hrest.
    cbn [random_stream random_used drawn logged] in *.
    simpl map. simpl concat. rewrite length_app.
    rewrite mock_vectors_app. rewrite <- app_assoc.
    split; [reflexivity | lia].
Qed.

(** The handler without a model: the vectors are the next blocks of the
    stream, whatever the positive batch size. *)
Lemma embed_texts_no_model (request : EmbedRequest) (b : Z) (w : World) :
  texts request <> [] ->
  (length (texts request) <= 64)%nat ->
  batch_size request = Some b ->
  0 < b ->
  model w = None ->
  exists response w',
    embed_texts request w = (inr response, w') /\
    embeddings response
    = mock_vectors (random_stream w) (random_used w)
        (length (texts request)) /\
    random_used w' = (random_used w + 1024 * length (texts request))%nat.
Proof.
  intros Hne Hle Hb Hpos Hm.
  pose proof (nonempty_not_list _ Hne) as Hnl.
  assert (Hlt : (64 <? Z.of_nat (length (texts request))) = false)
    by (apply Z.ltb_ge; lia).
  assert (Hsize : Z.min (int_or (batch_size request) 64) 64 = Z.min b 64).
  { rewrite Hb. unfold int_or. destruct (Z.eqb_spec b 0); [lia | reflexivity]. }
  assert (Hspos : 0 < Z.min b 64) by lia.
  destruct (range_returns (Z.of_nat (length (texts request))) (Z.min b 64))
    as (indices & Hrange); [lia|].
  destruct (batch_loop_mock_mode (texts request) (Z.min b 64) indices []
              (after_first_read w) Hm)
    as (w2 & Hloop & Hused).
  assert (Hcat :
            concat (map (fun i => slice (texts request) i (i + Z.min b 64))
                      indices)
            = texts request).
  { pose proof (batches_concat (texts request) (Z.min b 64) Hspos) as H.
    unfold batches in H. rewrite Hrange in H. exact H. }
  rewrite Hcat in Hloop, Hused. simpl in Hloop, Hused.
  rewrite <- Hsize in Hrange, Hloop.
  rewrite (embed_texts_after_loop _ _ _ _ _ Hnl Hlt Hrange Hloop).
  eexists. eexists. split; [reflexivity|]. split; [reflexivity|].
  exact Hused.
Qed.

(** X13. Without a model the answer does not depend on the batch size:
    for any positive batch size the vectors are the next blocks of the
    random stream, one per text in the order drawn, each divided by its
    norm; 1024 draws are consumed per text. *)
Theorem embed_texts_mock_mode (request : EmbedRequest) (b : Z) (w : World) :
  texts request <> [] ->
  (length (texts request) <= 64)%nat ->
  batch_size request = Some b ->
  0 < b ->
  model w = None ->
  exists response w',
    embed_texts request w = (inr response, w') /\
    post_embed request w = (mkHttpResponse 200 (inr response), w') /\
    embeddings response
    = mock_vectors (random_stream w) (random_used w)
        (length (texts request)) /\
    random_used w' = (random_used w + 1024 * length (texts request))%nat.
Proof.
  intros Hne Hle Hb Hpos Hm.
  destruct (embed_texts_no_model request b w Hne Hle Hb Hpos Hm)
    as (response & w' & Hrun & Hemb & Hused).
  exists response, w'. split; [exact Hrun|].
  split; [apply post_embed_returned; exact Hrun|].
  split; [exact Hemb | exact Hused].
Qed.

(** *** Loading the model, continued *)

Lemma detect_outcome_selected (d : string) :
  detect_outcome = inr d -> d = selected_device.
Proof.
  unfold detect_outcome, selected_device.
  destruct cuda_is_available;
    [destruct (cuda_get_device_name 0) | destruct mps_is_available];
    intro H; [discriminate | | |]; injection H as <-; reflexivity.
Qed.

(** What is in [model] after [load_model] ran on device [d], the device
    having been detected. *)
Definition model_after_load (w w' : World) (d : string) : Prop :=
  match torch_device d with
  | inl _ => model w' = model w
  | inr _ =>
      match BGEM3FlagModel "BAAI/bge-m3" (negb (String.eqb d "cpu")) with
      | inl _ => model w' = model w
      | inr m =>
          model w'
          = Some (if String.eqb d "cuda" then
                    match model_cuda m with inr m' => m' | inl _ => m end
                  else if String.eqb d "mps" then
                    match model_to m "mps" with
                    | inr m' => m'
                    | inl _ => m
                    end
                  else m)
      end
  end.

(** The state [load_model] leaves behind. *)
Lemma load_model_post (w : World) :
  exists w',
    load_model w = (inr load_calls_return, w') /\
    same_streams w w' /\
    match detect_outcome with
    | inl _ => device w' = device w /\ model w' = model w
    | inr d => device w' = Some d /\ model_after_load w w' d
    end.
Proof.
  unfold load_model, load_calls_return, detect_outcome, load_steps_return.
  unfold model_after_load, detect_device.
  unfold try_except, bind, lift, ret, logger, set_device, set_model.
  unfold same_streams.
  destruct cuda_is_available;
    [destruct (cuda_get_device_name 0) as [e0|name]
    |destruct mps_is_available]; cbn.
  - eexists; repeat split; reflexivity.
  - destruct (torch_device "cuda"); cbn;
      [eexists; repeat split; reflexivity|].
    destruct (BGEM3FlagModel "BAAI/bge-m3" true) as [e|m]; cbn;
      [eexists; repeat split; reflexivity|].
    destruct (model_cuda m); cbn; eexists; repeat split; reflexivity.
  - destruct (torch_device "mps"); cbn;
      [eexists; repeat split; reflexivity|].
    destruct (BGEM3FlagModel "BAAI/bge-m3" true) as [e|m]; cbn;
      [eexists; repeat split; reflexivity|].
    destruct (model_to m "mps"); cbn; eexists; repeat split; reflexivity.
  - destruct (torch_device "cpu"); cbn;
      [eexists; repeat split; reflexivity|].
    destruct (BGEM3FlagModel "BAAI/bge-m3" false) as [e|m]; cbn;
      eexists; repeat split; reflexivity.
Qed.

(** X9. What [load_model] does to the globals.  When [detect_device]
    raises (the lookup of the device name on a host with CUDA), it returns
    false and leaves [device] and [model] as they were.  When
    [detect_device] returns, [device] is set to the detected tag, also when
    a later step fails; when [torch.device] or the constructor raises,
    [model] keeps the value it had; otherwise a model is in [model].
    Whenever it returns true a model is loaded.  The constructor is asked
    for FP16 exactly when the device is not "cpu". *)
Theorem load_model_globals (w : World) :
  exists b w',
    load_model w = (inr b, w') /\
    (if b then exists m, model w' = Some m else True) /\
    match detect_outcome with
    | inl _ => b = false /\ device w' = device w /\ model w' = model w
    | inr d =>
        d = selected_device /\
        device w' = Some d /\
        match torch_device d with
        | inl _ => b = false /\ model w' = model w
        | inr _ =>
            match BGEM3FlagModel "BAAI/bge-m3"
                    (negb (String.eqb d "cpu")) with
            | inl _ => b = false /\ model w' = model w
            | inr _ => exists m, model w' = Some m
            end
        end
    end.
Proof.
  destruct (load_model_post w) as (w' & Hrun & _ & Hpost).
  exists load_calls_return, w'. split; [exact Hrun|].
  pose proof detect_outcome_selected as Hsel.
  unfold load_calls_return, load_steps_return, model_after_load in *.
  destruct detect_outcome as [e|d].
  - split; [exact I|]. destruct Hpost. auto.
  - destruct Hpost as (Hdev & Hmodel).
    destruct (torch_device d) as [e|u].
    + split; [exact I|]. auto.
    + destruct (BGEM3FlagModel "BAAI/bge-m3" (negb (String.eqb d "cpu")))
        as [e|m].
      * split; [exact I|]. auto.
      * split.
        -- match goal with
           | |- if ?c then _ else _ =>
               destruct c; [eexists; exact Hmodel | exact I]
           end.
        -- split; [apply Hsel; reflexivity|]. split; [exact Hdev|].
           eexists; exact Hmodel.
Qed.

(** X10. When CUDA is available, the name of the device is found and the
    constructor returns but moving the model to the device raises,
    [load_model] returns false with the model that was constructed left in
    the global; the health handler then says "healthy" with [model_loaded]
    true. *)
Theorem load_model_move_failure (w : World) (m : Model) (e : exn)
    (name : string) :
  cuda_is_available = true ->
  cuda_get_device_name 0 = inr name ->
  torch_device "cuda" = inr tt ->
  BGEM3FlagModel "BAAI/bge-m3" true = inr m ->
  model_cuda m = inl e ->
  exists w' h w'',
    load_model w = (inr false, w') /\
    model w' = Some m /\
    health_check w' = (inr h, w'') /\
    status h = "healthy" /\
    model_loaded h = true.
Proof.
  intros Hcuda Hname Hdev Hctor Hmove.
  destruct (load_model_post w) as (w' & Hrun & _ & Hpost).
  unfold load_calls_return, load_steps_return, model_after_load,
    detect_outcome in Hrun, Hpost.
  rewrite Hcuda, Hname in Hrun, Hpost. cbn in Hrun, Hpost.
  rewrite Hdev, Hctor, Hmove in Hrun, Hpost. cbn in Hrun.
  destruct Hpost as (_ & Hmodel).
  exists w'. unfold health_check, bind, get_device, get_model, ret.
  rewrite Hmodel. cbn.
  eexists. eexists. split; [exact Hrun|]. split; [reflexivity|].
  split; [reflexivity|]. split; reflexivity.
Qed.

(** *** Startup *)

Definition startup_failure_record : LogRecord :=
  (ERROR,
   "Failed to load model. Server will start but embedding endpoints will fail.").

(** What the startup hook leaves behind. *)
Lemma lifespan_startup_post (w : World) :
  exists w',
    lifespan_startup w = (inr tt, w') /\
    same_streams w w' /\
    (if load_calls_return then True
     else In startup_failure_record (log w')) /\
    match detect_outcome with
    | inl _ => device w' = device w /\ model w' = model w
    | inr d => device w' = Some d /\ model_after_load w w' d
    end.
Proof.
  unfold lifespan_startup.
  destruct (load_model_post (logged w [(INFO,
              "Starting BGE-M3 embedding server...")]))
    as (w1 & Hrun & Hsame & Hpost).
  rewrite (bind_inr _ _ w (logged w [(INFO,
             "Starting BGE-M3 embedding server...")]) tt) by reflexivity.
  rewrite (bind_inr _ _ _ _ _ Hrun).
  assert (Hpost' :
            match detect_outcome with
            | inl _ => device w1 = device w /\ model w1 = model w
            | inr d => device w1 = Some d /\ model_after_load w w1 d
            end) by exact Hpost.
  destruct load_calls_return; cbn.
  - exists w1. split; [reflexivity|]. split; [exact Hsame|].
    split; [exact I | exact Hpost'].
  - eexists. split; [reflexivity|]. cbn. split; [exact Hsame|].
    split; [|exact Hpost'].
    apply in_or_app. right. left. reflexivity.
Qed.

(** X11. The startup hook never raises, whatever fails while loading.
    Before it ran the health handler reports the device "unknown".  After
    it ran the handler reports, in both places where the answer carries
    the device, the detected tag when [detect_device] returned, and the
    device as it was before the startup when [detect_device] raised
    ("unknown" on a fresh process). *)
Theorem lifespan_startup_then_health (w : World)
    (stream ticks : nat -> scalar) :
  (exists h0 w0,
     health_check (initial_world stream ticks) = (inr h0, w0) /\
     hr_device h0 = "unknown" /\
     hmi_device (hr_model_info h0) = "unknown" /\
     status h0 = "healthy_mock") /\
  exists w' h w'',
    lifespan_startup w = (inr tt, w') /\
    health_check w' = (inr h, w'') /\
    hmi_device (hr_model_info h) = hr_device h /\
    match detect_outcome with
    | inr d => d = selected_device /\ hr_device h = d
    | inl _ => hr_device h = str_or (device w) "unknown"
    end.
Proof.
  split.
  - unfold health_check, bind, get_device, get_model, logger, ret. cbn.
    eexists. eexists. split; [reflexivity|]. repeat split.
  - destruct (lifespan_startup_post w) as (w' & Hrun & _ & _ & Hpost).
    exists w'. unfold health_check, bind, get_device, get_model, logger, ret.
    pose proof detect_outcome_selected as Hsel.
    destruct detect_outcome as [e|d].
    + destruct Hpost as (Hdev & _). rewrite Hdev.
      destruct (model w'); cbn -[str_or];
        eexists; eexists; (split; [exact Hrun|]); repeat split.
    + destruct Hpost as (Hdev & _). rewrite Hdev.
      assert (Hd : d = selected_device) by (apply Hsel; reflexivity).
      assert (Hor : str_or (Some d) "unknown" = d).
      { rewrite Hd. unfold selected_device.
        destruct cuda_is_available; [|destruct mps_is_available];
          reflexivity. }
      destruct (model w'); cbn -[str_or]; rewrite Hor;
        eexists; eexists; (split; [exact Hrun|]); repeat split;
        exact Hd.
Qed.

(** X12. A server whose model could not be constructed still answers.
    The startup hook logs that the embedding endpoints will fail, and yet
    an embed request with 1 to 64 texts and a positive batch size is
    answered 200, with one mock vector per text. *)
Theorem failed_startup_embed_answers (request : EmbedRequest) (b : Z)
    (w : World) (e : exn) :
  model w = None ->
  BGEM3FlagModel "BAAI/bge-m3" (negb (String.eqb selected_device "cpu"))
  = inl e ->
  texts request <> [] ->
  (length (texts request) <= 64)%nat ->
  batch_size request = Some b ->
  0 < b ->
  exists w1 response w2,
    lifespan_startup w = (inr tt, w1) /\
    In startup_failure_record (log w1) /\
    post_embed request w1 = (mkHttpResponse 200 (inr response), w2) /\
    embeddings response
    = mock_vectors (random_stream w) (random_used w)
        (length (texts request)).
Proof.
  intros Hm Hctor Hne Hle Hb Hpos.
  destruct (lifespan_startup_post w)
    as (w1 & Hrun & (Hs & Hu & _) & Hlog & Hpost).
  pose proof detect_outcome_selected as Hsel.
  assert (Hfail : load_calls_return = false /\ model w1 = None).
  { unfold load_calls_return, load_steps_return, model_after_load in *.
    destruct detect_outcome as [e0|d].
    - destruct Hpost as (_ & Hmodel). split; [reflexivity | congruence].
    - rewrite (Hsel d eq_refl) in *. rewrite Hctor in *.
      destruct Hpost as (_ & Hmodel).
      destruct (torch_device selected_device);
        (split; [reflexivity | congruence]). }
  destruct Hfail as (Hfail & Hm1).
  rewrite Hfail in Hlog.
  destruct (embed_texts_no_model request b w1 Hne Hle Hb Hpos Hm1)
    as (response & w2 & Hemb & Hvec & _).
  exists w1, response, w2. split; [exact Hrun|]. split; [exact Hlog|].
  split; [apply post_embed_returned; exact Hemb|].
  rewrite Hvec, Hs, Hu. reflexivity.
Qed.

End Server.

(** ** The normalisation step over the exact reals *)



(** ** A concrete server

    The server over binary64, with a stub in place of the libraries: a
    model handle without content, an encoder that gives every text the
    same vector of dimension 1024, a random stream that always draws 1,
    and a clock that advances by one second at each reading. *)

Definition stub_vector : F64.vector := repeat PrimFloat.two 1024.

Definition stub_encode (mdl : unit) (ts : list string) (size : Z)
  : result (list F64.vector) :=
  inr (map (fun _ => stub_vector) ts).

(** [str(e)] as Starlette prints an [HTTPException]: the status code, a
    colon and the detail. *)
Definition stub_str (e : exn) : string :=
  match e with
  | HTTPException status_code detail =>
      NilZero.string_of_int (Z.to_int status_code) ++ ": " ++ detail
  | Exception message => message
  end.

Definition stub_format_2f (x : PrimFloat.float) : string := "0.00".

Definition stub_stream (k : nat) : PrimFloat.float := PrimFloat.one.

Definition stub_clock (k : nat) : PrimFloat.float :=
  Nat.iter k (fun x => PrimFloat.add x PrimFloat.one) PrimFloat.zero.

Definition stub_world (loaded : bool) : World PrimFloat.float unit :=
  mkWorld PrimFloat.float unit (if loaded then Some tt else None)
          (Some "cpu") stub_stream 0 stub_clock 0 [].

(** The handlers and the two embedders of this server, for an encoder. *)
Definition stub_embed_texts
    (encode : unit -> list string -> Z -> result (list F64.vector))
  : EmbedRequest -> M PrimFloat.float unit (EmbedResponse PrimFloat.float) :=
  embed_texts PrimFloat.float F64.linalg_norm F64.true_divide
    F64.greater_zero F64.astype_float32 F64.subtract unit encode stub_str
    stub_format_2f.

Definition stub_post_embed
    (encode : unit -> list string -> Z -> result (list F64.vector))
    (request : EmbedRequest) (w : World PrimFloat.float unit)
  : HttpResponse (EmbedResponse PrimFloat.float) * World PrimFloat.float unit :=
  post_embed PrimFloat.float F64.linalg_norm F64.true_divide
    F64.greater_zero F64.astype_float32 F64.subtract unit encode stub_str
    stub_format_2f request w.

Definition stub_embed_texts_actual
    (encode : unit -> list string -> Z -> result (list F64.vector))
  : list string -> Z -> M PrimFloat.float unit (list F64.vector) :=
  embed_texts_actual PrimFloat.float F64.linalg_norm F64.true_divide
    F64.greater_zero F64.astype_float32 unit encode stub_str.

Definition stub_embed_texts_mock
  : list string -> Z -> M PrimFloat.float unit (list F64.vector) :=
  embed_texts_mock PrimFloat.float F64.linalg_norm F64.true_divide
    F64.astype_float32 unit.

Definition stub_normalize_embedding : F64.vector -> F64.vector :=
  normalize_embedding PrimFloat.float F64.linalg_norm F64.true_divide
    F64.greater_zero.

Definition stub_mock_vectors (stream : nat -> PrimFloat.float)
    (start n : nat) : list F64.vector :=
  mock_vectors PrimFloat.float F64.linalg_norm F64.true_divide
    F64.astype_float32 stream start n.

Definition three_texts (size : Z) : EmbedRequest :=
  mkEmbedRequest ["a"; "b"; "c"] (Some size) (Some true).

Example range_0_5_2 : range 0 5 2 = inr [0; 2; 4].
Proof. reflexivity. Qed.

Example range_0_3_minus_1 : range 0 3 (-1) = inr [].
Proof. reflexivity. Qed.

Example range_5_0_minus_2 : range 5 0 (-2) = inr [5; 3; 1].
Proof. reflexivity. Qed.

Example range_zero_step_raises :
  range 0 3 0 = inl (Exception "range() arg 3 must not be zero").
Proof. reflexivity. Qed.

Example slice_past_the_end : slice ["a"; "b"; "c"] 2 4 = ["c"].
Proof. reflexivity. Qed.

Example slice_negative_bounds : slice ["a"; "b"; "c"] (-2) (-1) = ["b"].
Proof. reflexivity. Qed.

Example batches_of_two : batches ["a"; "b"; "c"] 2 = [["a"; "b"]; ["c"]].
Proof. reflexivity. Qed.

Example batches_of_minus_one : batches ["a"; "b"; "c"] (-1) = [].
Proof. reflexivity. Qed.

(** A request without texts is answered 500, not 400. *)
Example post_embed_no_texts :
  fst (stub_post_embed stub_encode
         (mkEmbedRequest [] (Some 64) (Some true)) (stub_world false))
  = mkHttpResponse 500
      (inl "Embedding generation failed: 400: No texts provided").
Proof. reflexivity. Qed.

(** And so is a request with 65 texts. *)
Example post_embed_65_texts :
  fst (stub_post_embed stub_encode
         (mkEmbedRequest (repeat "x" 65) (Some 64) (Some true))
         (stub_world false))
  = mkHttpResponse 500
      (inl "Embedding generation failed: 400: Too many texts. Maximum allowed: 64").
Proof. reflexivity. Qed.

(** The health handler with and without a model. *)
Example get_health_loaded :
  fst (get_health PrimFloat.float unit (stub_world true))
  = mkHttpResponse 200
      (inr (mkHealthResponse "healthy" "cpu" true
              (mkHealthModelInfo "BAAI/bge-m3" 1024 "cpu" "BGE-M3"))).
Proof. reflexivity. Qed.

Example get_health_mock :
  fst (get_health PrimFloat.float unit (stub_world false))
  = mkHttpResponse 200
      (inr (mkHealthResponse "healthy_mock" "cpu" false
              (mkHealthModelInfo "BAAI/bge-m3" 1024 "cpu" "BGE-M3"))).
Proof. reflexivity. Qed.

(** The normalisation step in binary64: it halves a vector of norm two,
    keeps a vector of norm one and keeps the zero vector. *)
Example normalize_two_zero :
  stub_normalize_embedding [PrimFloat.two; PrimFloat.zero]
  = [PrimFloat.one; PrimFloat.zero].
Proof. reflexivity. Qed.

Example normalize_unit_vector :
  stub_normalize_embedding [PrimFloat.one; PrimFloat.zero]
  = [PrimFloat.one; PrimFloat.zero].
Proof. reflexivity. Qed.

Example normalize_zero_vector :
  stub_normalize_embedding [PrimFloat.zero; PrimFloat.zero]
  = [PrimFloat.zero; PrimFloat.zero].
Proof. reflexivity. Qed.


(** ** Where the code departs from what is asked of it *)

(** A host with CUDA on which the name of the device cannot be read. *)
Definition stub_device_name (index : Z) : result string := inr "GPU 0".

Definition stub_device_name_raises (index : Z) : result string :=
  inl (Exception "CUDA driver initialization failed").

(** C6 refuted on that host: the device selector raises, and returns no
    tag. *)
Lemma detect_device_raises :
  detect_device PrimFloat.float unit true stub_device_name_raises false
    (stub_world false)
  = (inl (Exception "CUDA driver initialization failed"), stub_world false)
  /\
  ~ exists d w',
      detect_device PrimFloat.float unit true stub_device_name_raises false
        (stub_world false)
      = (inr d, w').
Proof.
  split; [reflexivity|].
  intros (d & w' & H). cbv in H. discriminate.
Qed.











(** ** The properties on the concrete server *)

(** An encoder that runs out of memory on any batch that holds the text
    "bad". *)
Definition flaky_encode (mdl : unit) (ts : list string) (size : Z)
  : result (list F64.vector) :=
  if existsb (String.eqb "bad") ts then inl (Exception "CUDA out of memory")
  else inr (map (fun _ => stub_vector) ts).

(** A host with CUDA where the model is constructed but cannot be moved
    to the device, and a host without accelerator where the constructor
    finds no weights. *)
Definition stub_torch_device (d : string) : result unit := inr tt.

Definition stub_constructor (name : string) (use_fp16 : bool) : result unit :=
  inr tt.

Definition stub_no_weights (name : string) (use_fp16 : bool) : result unit :=
  inl (Exception "weights not found").

Definition stub_cuda_raises (m : unit) : result unit :=
  inl (Exception "'BGEM3FlagModel' object has no attribute 'cuda'").

Definition stub_to (m : unit) (d : string) : result unit := inr tt.

Definition flaky_texts : EmbedRequest :=
  mkEmbedRequest ["a"; "bad"; "c"] (Some 2) (Some true).


(** C9 at three texts and a batch size of -1. *)
Lemma negative_batch_size_empty_embeddings_witness :
  texts (three_texts (-1)) <> [] /\
  (length (texts (three_texts (-1))) <= 64)%nat /\
  batch_size (three_texts (-1)) = Some (-1) /\
  -1 < 0 /\
  exists response w',
    stub_embed_texts stub_encode (three_texts (-1)) (stub_world true)
    = (inr response, w') /\
    stub_post_embed stub_encode (three_texts (-1)) (stub_world true)
    = (mkHttpResponse 200 (inr response), w') /\
    embeddings PrimFloat.float response = [].
Proof.
  assert (H1 : texts (three_texts (-1)) <> []) by (simpl; discriminate).
  assert (H2 : (length (texts (three_texts (-1))) <= 64)%nat)
    by (simpl; lia).
  assert (H3 : batch_size (three_texts (-1)) = Some (-1)) by reflexivity.
  assert (H4 : -1 < 0) by lia.
  repeat (split; [assumption|]).
  destruct (negative_batch_size_empty_embeddings PrimFloat.float
              F64.linalg_norm F64.true_divide F64.greater_zero
              F64.astype_float32 F64.subtract unit stub_encode stub_str
              stub_format_2f (three_texts (-1)) (-1) (stub_world true)
              H1 H2 H3 H4)
    as (response & w' & Hrun & Hpost & _ & Hemb & _).
  exists response, w'. auto.
Defined.

(** X14 at three texts in batches of two, with the stub encoder: one
    vector per text, each the normalised stub vector. *)
Lemma embed_texts_pointwise_encoder_witness :
  texts (three_texts 2) <> [] /\
  (length (texts (three_texts 2)) <= 64)%nat /\
  batch_size (three_texts 2) = Some 2 /\
  0 < 2 /\
  model PrimFloat.float unit (stub_world true) = Some tt /\
  (forall ts size, stub_encode tt ts size = inr (map (fun _ => stub_vector) ts)) /\
  exists response w',
    stub_embed_texts stub_encode (three_texts 2) (stub_world true)
    = (inr response, w') /\
    embeddings PrimFloat.float response
    = [stub_normalize_embedding stub_vector;
       stub_normalize_embedding stub_vector;
       stub_normalize_embedding stub_vector].
Proof.
  assert (H1 : texts (three_texts 2) <> []) by (simpl; discriminate).
  assert (H2 : (length (texts (three_texts 2)) <= 64)%nat) by (simpl; lia).
  assert (H3 : batch_size (three_texts 2) = Some 2) by reflexivity.
  assert (H4 : 0 < 2) by lia.
  assert (H5 : model PrimFloat.float unit (stub_world true) = Some tt)
    by reflexivity.
  assert (H6 : forall ts size,
             stub_encode tt ts size = inr (map (fun _ => stub_vector) ts))
    by (intros; reflexivity).
  repeat (split; [assumption|]).
  exact (embed_texts_pointwise_encoder PrimFloat.float F64.linalg_norm
           F64.true_divide F64.greater_zero F64.astype_float32 F64.subtract
           unit stub_encode stub_str stub_format_2f (three_texts 2) 2
           (stub_world true) tt (fun _ => stub_vector) H1 H2 H3 H4 H5 H6).
Defined.

(** X2 at two pairs of texts and two batch sizes. *)
Lemma embed_texts_mock_ignores_content_witness :
  length ["a"; "b"] = length ["hello"; "world"] /\
  stub_embed_texts_mock ["a"; "b"] 64 (stub_world false)
  = stub_embed_texts_mock ["hello"; "world"] 1 (stub_world false).
Proof.
  split; [reflexivity|].
  apply (embed_texts_mock_ignores_content PrimFloat.float F64.linalg_norm
           F64.true_divide F64.astype_float32 unit ["a"; "b"]
           ["hello"; "world"] 64 1 (stub_world false)).
  reflexivity.
Defined.

(** X5 at three texts in batches of two. *)
Lemma batches_partition_witness :
  0 < 2 /\
  concat (batches ["a"; "b"; "c"] 2) = ["a"; "b"; "c"] /\
  Z.of_nat (length (batches ["a"; "b"; "c"] 2)) = (3 + 2 - 1) / 2.
Proof.
  assert (H : 0 < 2) by lia.
  split; [exact H|].
  destruct (batches_partition ["a"; "b"; "c"] 2 H) as (Hc & _ & Hn & _).
  split; [exact Hc | exact Hn].
Defined.

(** X6 at three texts and the default batch size. *)
Lemma embed_texts_single_batch_witness :
  texts (three_texts 64) <> [] /\
  (length (texts (three_texts 64)) <= 64)%nat /\
  Z.of_nat (length (texts (three_texts 64)))
  <= Z.min (int_or (batch_size (three_texts 64)) 64) 64 /\
  exists response w' w2,
    stub_embed_texts stub_encode (three_texts 64) (stub_world true)
    = (inr response, w') /\
    stub_embed_texts_actual stub_encode ["a"; "b"; "c"] 64
      (after_first_read PrimFloat.float unit (stub_world true))
    = (inr (embeddings PrimFloat.float response), w2).
Proof.
  assert (H1 : texts (three_texts 64) <> []) by (simpl; discriminate).
  assert (H2 : (length (texts (three_texts 64)) <= 64)%nat) by (simpl; lia).
  assert (H3 : Z.of_nat (length (texts (three_texts 64)))
               <= Z.min (int_or (batch_size (three_texts 64)) 64) 64)
    by (vm_compute; discriminate).
  repeat (split; [assumption|]).
  destruct (embed_texts_single_batch PrimFloat.float F64.linalg_norm
              F64.true_divide F64.greater_zero F64.astype_float32
              F64.subtract unit stub_encode stub_str stub_format_2f
              (three_texts 64) (stub_world true) H1 H2 H3)
    as (response & w' & w2 & Hrun & _ & Hcall).
  exists response, w', w2. split; [exact Hrun | exact Hcall].
Defined.

(** X7 at three texts in batches of two, the first of which holds "bad":
    two mock vectors, then the encoder's vector for "c". *)
Lemma embed_texts_fallback_per_batch_witness :
  texts flaky_texts <> [] /\
  (length (texts flaky_texts) <= 64)%nat /\
  batch_size flaky_texts = Some 2 /\
  0 < 2 /\
  model PrimFloat.float unit (stub_world true) = Some tt /\
  exists response w' mocked,
    stub_embed_texts flaky_encode flaky_texts (stub_world true)
    = (inr response, w') /\
    length mocked = 2%nat /\
    Forall (mock_vector PrimFloat.float F64.linalg_norm F64.true_divide
              F64.astype_float32 stub_stream) mocked /\
    embeddings PrimFloat.float response
    = (mocked ++ [stub_normalize_embedding stub_vector])%list.
Proof.
  assert (H1 : texts flaky_texts <> []) by (simpl; discriminate).
  assert (H2 : (length (texts flaky_texts) <= 64)%nat) by (simpl; lia).
  assert (H3 : batch_size flaky_texts = Some 2) by reflexivity.
  assert (H4 : 0 < 2) by lia.
  assert (H5 : model PrimFloat.float unit (stub_world true) = Some tt)
    by reflexivity.
  repeat (split; [assumption|]).
  destruct (embed_texts_fallback_per_batch PrimFloat.float F64.linalg_norm
              F64.true_divide F64.greater_zero F64.astype_float32
              F64.subtract unit flaky_encode stub_str stub_format_2f
              flaky_texts 2 (stub_world true) tt H1 H2 H3 H4 H5)
    as (response & w' & outs & Hrun & Hemb & HF).
  change (batches (texts flaky_texts) (Z.min 2 64))
    with [["a"; "bad"]; ["c"]] in HF.
  inversion HF as [|b1 o1 bs1 os1 Hfirst Hrest]; subst.
  inversion Hrest as [|b2 o2 bs2 os2 Hsecond Hnil]; subst.
  inversion Hnil; subst.
  assert (E1 : flaky_encode tt ["a"; "bad"] (Z.min 2 64)
               = inl (Exception "CUDA out of memory")) by reflexivity.
  assert (E2 : flaky_encode tt ["c"] (Z.min 2 64) = inr [stub_vector])
    by reflexivity.
  rewrite E1 in Hfirst. rewrite E2 in Hsecond.
  destruct Hfirst as (Hlen & Hall).
  exists response, w', o1. split; [exact Hrun|].
  split; [exact Hlen|]. split; [exact Hall|].
  rewrite Hemb, Hsecond. cbn [concat app map]. reflexivity.
Defined.

(** X10 on the host with CUDA. *)
Lemma load_model_move_failure_witness :
  true = true /\
  stub_device_name 0 = inr "GPU 0" /\
  stub_torch_device "cuda" = inr tt /\
  stub_constructor "BAAI/bge-m3" true = inr tt /\
  stub_cuda_raises tt
  = inl (Exception "'BGEM3FlagModel' object has no attribute 'cuda'") /\
  exists w' h w'',
    load_model PrimFloat.float unit true stub_device_name false
      stub_torch_device stub_constructor stub_cuda_raises stub_to stub_str
      (stub_world false)
    = (inr false, w') /\
    model PrimFloat.float unit w' = Some tt /\
    health_check PrimFloat.float unit w' = (inr h, w'') /\
    status h = "healthy" /\
    model_loaded h = true.
Proof.
  repeat (split; [reflexivity|]).
  exact (load_model_move_failure PrimFloat.float unit true stub_device_name
           false stub_torch_device stub_constructor stub_cuda_raises stub_to
           stub_str (stub_world false) tt
           (Exception "'BGEM3FlagModel' object has no attribute 'cuda'")
           "GPU 0" eq_refl eq_refl eq_refl eq_refl eq_refl).
Defined.

(** X12 on the host without accelerator and without weights. *)
Lemma failed_startup_embed_answers_witness :
  model PrimFloat.float unit (stub_world false) = None /\
  stub_no_weights "BAAI/bge-m3"
    (negb (String.eqb (selected_device false false) "cpu"))
  = inl (Exception "weights not found") /\
  texts (three_texts 2) <> [] /\
  (length (texts (three_texts 2)) <= 64)%nat /\
  batch_size (three_texts 2) = Some 2 /\
  0 < 2 /\
  exists w1 response w2,
    lifespan_startup PrimFloat.float unit false stub_device_name false
      stub_torch_device stub_no_weights stub_cuda_raises stub_to stub_str
      (stub_world false)
    = (inr tt, w1) /\
    In startup_failure_record (log PrimFloat.float unit w1) /\
    stub_post_embed stub_encode (three_texts 2) w1
    = (mkHttpResponse 200 (inr response), w2) /\
    embeddings PrimFloat.float response = stub_mock_vectors stub_stream 0 3.
Proof.
  assert (H1 : model PrimFloat.float unit (stub_world false) = None)
    by reflexivity.
  assert (H2 : stub_no_weights "BAAI/bge-m3"
                 (negb (String.eqb (selected_device false false) "cpu"))
               = inl (Exception "weights not found")) by reflexivity.
  assert (H3 : texts (three_texts 2) <> []) by (simpl; discriminate).
  assert (H4 : (length (texts (three_texts 2)) <= 64)%nat) by (simpl; lia).
  assert (H5 : batch_size (three_texts 2) = Some 2) by reflexivity.
  assert (H6 : 0 < 2) by lia.
  repeat (split; [assumption|]).
  exact (failed_startup_embed_answers PrimFloat.float F64.linalg_norm
           F64.true_divide F64.greater_zero F64.astype_float32 F64.subtract
           unit false stub_device_name false stub_torch_device
           stub_no_weights stub_cuda_raises stub_to stub_encode stub_str
           stub_format_2f (three_texts 2) 2 (stub_world false)
           (Exception "weights not found") H1 H2 H3 H4 H5 H6).
Defined.

(** X13 at three texts in batches of two, without a model. *)
Lemma embed_texts_mock_mode_witness :
  texts (three_texts 2) <> [] /\
  (length (texts (three_texts 2)) <= 64)%nat /\
  batch_size (three_texts 2) = Some 2 /\
  0 < 2 /\
  model PrimFloat.float unit (stub_world false) = None /\
  exists response w',
    stub_embed_texts stub_encode (three_texts 2) (stub_world false)
    = (inr response, w') /\
    embeddings PrimFloat.float response = stub_mock_vectors stub_stream 0 3 /\
    random_used PrimFloat.float unit w' = 3072%nat.
Proof.
  assert (H1 : texts (three_texts 2) <> []) by (simpl; discriminate).
  assert (H2 : (length (texts (three_texts 2)) <= 64)%nat) by (simpl; lia).
  assert (H3 : batch_size (three_texts 2) = Some 2) by reflexivity.
  assert (H4 : 0 < 2) by lia.
  assert (H5 : model PrimFloat.float unit (stub_world false) = None)
    by reflexivity.
  repeat (split; [assumption|]).
  destruct (embed_texts_mock_mode PrimFloat.float F64.linalg_norm
              F64.true_divide F64.greater_zero F64.astype_float32
              F64.subtract unit stub_encode stub_str stub_format_2f
              (three_texts 2) 2 (stub_world false) H1 H2 H3 H4 H5)
    as (response & w' & Hrun & _ & Hemb & Hused).
  exists response, w'. split; [exact Hrun|]. split; [exact Hemb|].
  rewrite Hused. reflexivity.
Defined.

(** X15 at three texts: the stub clock reads 0 and then 1. *)
Lemma embed_texts_model_info_witness :
  texts (three_texts 2) <> [] /\
  (length (texts (three_texts 2)) <= 64)%nat /\
  exists response w',
    stub_embed_texts stub_encode (three_texts 2) (stub_world true)
    = (inr response, w') /\
    model_info PrimFloat.float response
    = mkEmbedModelInfo PrimFloat.float "BAAI/bge-m3" (Some "cpu") 1024
        PrimFloat.one 3.
Proof.
  assert (H1 : texts (three_texts 2) <> []) by (simpl; discriminate).
  assert (H2 : (length (texts (three_texts 2)) <= 64)%nat) by (simpl; lia).
  repeat (split; [assumption|]).
  destruct (embed_texts_model_info PrimFloat.float F64.linalg_norm
              F64.true_divide F64.greater_zero F64.astype_float32
              F64.subtract unit stub_encode stub_str stub_format_2f
              (three_texts 2) (stub_world true) H1 H2)
    as (response & w' & Hrun & Hinfo & _).
  exists response, w'. split; [exact Hrun | exact Hinfo].
Defined.
